(** * Link validation of blueprint/check.py

    A shallow embedding of the link extractor and resolver of
    [blueprint/check.py], and the properties of its anchor folding, heading
    extraction, fence tracking and link classification.

    Python [str] values are sequences of Unicode code points; they are
    modelled as lists of [N].  The file system and [pathlib] are the only
    things the script does not define itself: they are fields of a record
    the resolver is parameterised by. *)

From Stdlib Require Import List NArith Bool Arith Lia String Ascii Sorted.
Import ListNotations.

Set Implicit Arguments.

(** ** Python strings *)

Module Py.

Definition char := N.
Definition str := list char.

(** A string literal of the script, as its code points. *)
Definition lit (s : string) : str := map N_of_ascii (list_ascii_of_string s).

Definition char_eqb : char -> char -> bool := N.eqb.

Fixpoint str_eqb (a b : str) : bool :=
  match a, b with
  | [], [] => true
  | x :: a', y :: b' => char_eqb x y && str_eqb a' b'
  | _, _ => false
  end.

(** [s.startswith(p)] *)
Fixpoint startswith (p s : str) : bool :=
  match p, s with
  | [], _ => true
  | x :: p', y :: s' => char_eqb x y && startswith p' s'
  | _ :: _, [] => false
  end.

(** [s.endswith(p)] *)
Definition endswith (p s : str) : bool := startswith (rev p) (rev s).

(** [p in s] for strings: some suffix of [s] starts with [p]. *)
Fixpoint contains (p s : str) : bool :=
  startswith p s ||
  match s with
  | [] => false
  | _ :: s' => contains p s'
  end.

(** [s.count(c)] for a one-character needle. *)
Definition count_char (c : char) (s : str) : nat :=
  List.length (filter (char_eqb c) s).

(** [x in [a, b, ...]] for a list of strings. *)
Definition str_in (x : str) (l : list str) : bool := existsb (str_eqb x) l.

(** [s.startswith((p1, p2, ...))] and [s.endswith((p1, p2, ...))] *)
Definition startswith_any (ps : list str) (s : str) : bool :=
  existsb (fun p => startswith p s) ps.
Definition endswith_any (ps : list str) (s : str) : bool :=
  existsb (fun p => endswith p s) ps.

(** Whitespace as [str.isspace], [str.strip] and the whitespace class of
    [re] on [str] patterns see it. *)
Definition is_space (c : char) : bool :=
  (((9 <=? c) && (c <=? 13)) || ((28 <=? c) && (c <=? 32))
  || (c =? 133) || (c =? 160) || (c =? 5760)
  || ((8192 <=? c) && (c <=? 8202))
  || (c =? 8232) || (c =? 8233) || (c =? 8239) || (c =? 8287)
  || (c =? 12288))%N.

Fixpoint lstrip_by (p : char -> bool) (s : str) : str :=
  match s with
  | [] => []
  | c :: s' => if p c then lstrip_by p s' else s
  end.

Fixpoint rstrip_by (p : char -> bool) (s : str) : str :=
  match s with
  | [] => []
  | c :: s' =>
      match rstrip_by p s' with
      | [] => if p c then [] else [c]
      | r => c :: r
      end
  end.

Definition strip_by (p : char -> bool) (s : str) : str :=
  rstrip_by p (lstrip_by p s).

(** [s.strip()], [s.rstrip()] and [s.strip('-')] *)
Definition strip (s : str) : str := strip_by is_space s.
Definition rstrip (s : str) : str := rstrip_by is_space s.
Definition strip_chars (cs : str) (s : str) : str :=
  strip_by (fun c => existsb (char_eqb c) cs) s.

(** [s.lower()].  The next step of the anchor folding erases every code
    point outside ASCII that is not whitespace, so of the lowercase form of
    a non-ASCII code point only an ASCII part can be observed: U+0130 lowers
    to [i] followed by U+0307 and U+212A lowers to [k]; every other
    non-ASCII code point lowers to non-ASCII code points and is left in
    place here. *)
Definition lower_char (c : char) : str :=
  (if (65 <=? c) && (c <=? 90) then [c + 32]
   else if c =? 304 then [105; 775]
   else if c =? 8490 then [107]
   else [c])%N.

Definition lower (s : str) : str := flat_map lower_char s.

(** [s.split(sep)] for a one-character separator: the pieces between the
    separators, at least one piece. *)
Fixpoint split_char (sep : char) (s : str) : list str :=
  match s with
  | [] => [[]]
  | c :: s' =>
      if char_eqb c sep then [] :: split_char sep s'
      else match split_char sep s' with
           | [] => [[c]]
           | piece :: rest => (c :: piece) :: rest
           end
  end.

(** [s.split(sep, 1)] when [sep in s]: the text before the first separator
    and the text after it. *)
Fixpoint split_once (sep : char) (s : str) : str * str :=
  match s with
  | [] => ([], [])
  | c :: s' =>
      if char_eqb c sep then ([], s')
      else let (a, b) := split_once sep s' in (c :: a, b)
  end.

(** The lines a text file yields when iterated: each piece keeps its
    newline, and no empty piece follows the last newline. *)
Fixpoint file_lines (s : str) : list str :=
  match s with
  | [] => []
  | c :: s' =>
      if char_eqb c 10%N then [c] :: file_lines s'
      else match file_lines s' with
           | [] => [[c]]
           | piece :: rest => (c :: piece) :: rest
           end
  end.

End Py.

Import Py.

(** ** The regular expressions of the script *)

Module Re.

(** [re.sub] of a one-character class: every character of the class is
    replaced by [repl]. *)
Definition sub_class (cls : char -> bool) (repl s : str) : str :=
  flat_map (fun c => if cls c then repl else [c]) s.

(** [re.sub] of a one-character class under a plus: the scan replaces the
    longest run of the class that starts where it stands and goes on after
    the run.  [in_run] tells that the character before belongs to a run
    already replaced. *)
Fixpoint sub_plus_from (cls : char -> bool) (repl : str) (in_run : bool)
    (s : str) : str :=
  match s with
  | [] => []
  | c :: s' =>
      if cls c then
        if in_run then sub_plus_from cls repl true s'
        else repl ++ sub_plus_from cls repl true s'
      else c :: sub_plus_from cls repl false s'
  end.

Definition sub_plus (cls : char -> bool) (repl s : str) : str :=
  sub_plus_from cls repl false s.

(** [re.sub] of the heading marker pattern (start of string, one or more
    [#], any whitespace) by the empty string: at the start of the string
    only, a run of at least one [#] and the whitespace after it are
    removed. *)
Definition sub_heading_marker (s : str) : str :=
  if startswith [35%N] s
  then lstrip_by is_space (lstrip_by (char_eqb 35%N) s)
  else s.

(** [until_char stop s]: the characters of [s] before the first [stop] and
    the text behind that [stop]; a negated one-character class under a star,
    followed by the excluded character, matches in this way only. *)
Fixpoint until_char (stop : char) (s : str) : option (str * str) :=
  match s with
  | [] => None
  | c :: s' =>
      if char_eqb c stop then Some ([], s')
      else match until_char stop s' with
           | Some (a, r) => Some (c :: a, r)
           | None => None
           end
  end.

(** One attempt of the link pattern at the start of [s]: an opening square
    bracket, a first group free of closing square brackets, a closing square
    bracket and an opening parenthesis, a second group free of closing
    parentheses, a closing parenthesis.  The result has the two groups and
    the number of characters matched. *)
Definition match_link (s : str) : option (str * str * nat) :=
  match s with
  | c :: r =>
      if char_eqb c 91%N then
        match until_char 93%N r with
        | Some (text, c2 :: r2) =>
            if char_eqb c2 40%N then
              match until_char 41%N r2 with
              | Some (target, _) =>
                  Some (text, target,
                        4 + List.length text + List.length target)
              | None => None
              end
            else None
        | _ => None
        end
      else None
  | [] => None
  end.

(** [re.findall] of the link pattern: matches are tried at each position
    from the left; after a match the scan goes on behind it, so [skip]
    characters of the match are passed over. *)
Fixpoint findall_link_from (skip : nat) (s : str) : list (str * str) :=
  match s with
  | [] => []
  | _ :: s' =>
      match skip with
      | S k => findall_link_from k s'
      | O =>
          match match_link s with
          | Some (text, target, n) =>
              (text, target) :: findall_link_from (Nat.pred n) s'
          | None => findall_link_from 0 s'
          end
      end
  end.

Definition findall_link (s : str) : list (str * str) := findall_link_from 0 s.

End Re.

(** ** generate_github_anchor *)

Definition anchor_keeps (c : char) : bool :=
  (((97 <=? c) && (c <=? 122)) || ((48 <=? c) && (c <=? 57))
   || is_space c || (c =? 45))%N.

Definition generate_github_anchor (heading : str) : str :=
  let anchor := lower heading in
  let anchor := Re.sub_class (fun c => negb (anchor_keeps c)) [] anchor in
  let anchor := Re.sub_plus is_space (lit "-") anchor in
  let anchor := Re.sub_plus (fun c => char_eqb c 45%N) (lit "-") anchor in
  strip_chars (lit "-") anchor.

(** ** The file system

    [open] and the reads after it either deliver the decoded text of a file,
    its line ends translated to the newline character, or raise.  [f.read()]
    delivers all of the text or nothing.  The iteration over the lines of a
    file that cannot be read to its end delivers the lines before the
    failure and then raises: none when the file cannot be opened, the lines
    decoded so far when the decoding fails further on.
    [Path.exists] and the string of [Path('blueprint') / file_part] belong
    to [pathlib]; [Path.exists] answers or lets an [OSError] through. *)

Inductive outcome (A : Type) : Type :=
| Returned (a : A)
| Raised.
Arguments Raised {A}.

Record FileSystem : Type := {
  (** the text of a file, or the exception of [open] or of the read *)
  read_text : str -> outcome str;
  (** the lines the iteration delivers before it raises, for a file whose
      read raises *)
  lines_before_failure : str -> list str;
  (** the answer of [Path.exists] when it returns *)
  path_exists : str -> bool;
  (** whether [Path.exists] raises on the path *)
  exists_raises : str -> bool;
  blueprint_path : str -> str
}.

(** The truth value of a string in a condition. *)
Definition truthy (s : str) : bool :=
  match s with
  | [] => false
  | _ :: _ => true
  end.

(** ** extract_headings *)

(** The body of the loop over the lines of the file. *)
Definition heading_step (headings : list str) (line : str) : list str :=
  if startswith (lit "#") (strip line) then
    let heading := Re.sub_heading_marker (strip line) in
    let heading := rstrip heading in
    if truthy heading then headings ++ [heading] else headings
  else headings.

(** [headings] is filled inside the [try]; the handler prints the exception,
    and what was appended before it is returned. *)
Definition extract_headings (fs : FileSystem) (file_path : str) : list str :=
  match read_text fs file_path with
  | Returned content => fold_left heading_step (file_lines content) []
  | Raised => fold_left heading_step (lines_before_failure fs file_path) []
  end.

(** ** anchor_exists *)

Fixpoint anchor_among (headings : list str) (anchor : str) : bool :=
  match headings with
  | [] => false
  | heading :: rest =>
      let generated_anchor := generate_github_anchor heading in
      if str_eqb generated_anchor anchor then true
      else anchor_among rest anchor
  end.

Definition anchor_exists (fs : FileSystem) (file_path anchor : str) : bool :=
  let headings := extract_headings fs file_path in
  anchor_among headings anchor.

(** ** validate_link *)

Record ValidationResult : Type := {
  file : str;
  line : nat;
  text : str;
  link : str;
  status : str;
  suggestion : str
}.

Definition image_suffixes : list str :=
  [lit ".svg"; lit ".png"; lit ".jpg"; lit ".jpeg"; lit ".gif"; lit ".webp"].

(** The two variables [status] and [suggestion] at the end of the chain of
    conditions. *)
Definition link_status (fs : FileSystem) (source_file link_target : str)
    : str * str :=
  if startswith_any [lit "http://"; lit "https://"] link_target then
    (lit "valid", lit "")
  else if startswith (lit "#") link_target then
    let anchor := tl link_target in
    if anchor_exists fs source_file anchor then (lit "valid", lit "")
    else
      (lit "missing-anchor",
       lit "Anchor '#" ++ anchor ++ lit "' not found in " ++ source_file
       ++ lit ". Check heading exists and anchor format.")
  else if startswith (lit "./") link_target
          || (negb (contains (lit "/") link_target)
              || (count_char 47%N link_target =? 1)) then
    let (file_part, anchor_part) :=
      if contains (lit "#") link_target then split_once 35%N link_target
      else (link_target, lit "") in
    let file_part :=
      if startswith (lit "./") file_part then skipn 2 file_part
      else file_part in
    let full_file_path := blueprint_path fs file_part in
    if path_exists fs full_file_path then
      if truthy anchor_part then
        if anchor_exists fs full_file_path anchor_part then
          (lit "valid", lit "")
        else
          (lit "missing-anchor",
           lit "Anchor '#" ++ anchor_part ++ lit "' not found in "
           ++ full_file_path
           ++ lit ". Check heading exists and anchor format.")
      else (lit "valid", lit "")
    else if endswith_any image_suffixes file_part then
      (lit "valid", lit "")
    else
      (lit "invalid",
       lit "File '" ++ file_part
       ++ lit "' does not exist in blueprint/ directory.")
  else
    (lit "invalid",
     lit "Link format not supported. Use relative links (./file.md) for local files.").

Definition validate_link (fs : FileSystem) (source_file : str)
    (line_num : nat) (link_text link_target : str) : ValidationResult :=
  let (status, suggestion) := link_status fs source_file link_target in
  {| file := source_file; line := line_num; text := link_text;
     link := link_target; status := status; suggestion := suggestion |}.

(** ** is_likely_code_snippet *)

Definition is_likely_code_snippet (line link_text link_target : str) : bool :=
  if contains (lit "```") line || startswith (lit "    ") (strip line) then
    true
  else if str_in link_text [lit "this"; lit "&"; lit "="]
          && (contains (lit "const") link_target
              || contains (lit "&") link_target) then
    true
  else if (contains (lit "const") link_target
           && (contains (lit "&") link_target
               || contains (lit "*") link_target))
          || contains (lit "std::") link_target
          || (contains (lit "::") link_target
              && negb (contains (lit "http") link_target)) then
    true
  else if contains (lit ",") link_text
          && (contains (lit "const") link_target
              || contains (lit "&") link_target) then
    true
  else false.

(** ** extract_links_from_file *)

Record Link : Type := {
  link_line_num : nat;
  link_text_of : str;
  link_target_of : str
}.

(** The state of the loop over the lines: the fence flag and the links
    appended so far. *)
Record ScanState : Type := {
  in_code_block : bool;
  links : list Link
}.

(** The inner loop, over the matches of one line. *)
Definition match_step (line_num : nat) (line : str) (links : list Link)
    (m : str * str) : list Link :=
  let (link_text, link_target) := m in
  if truthy (strip link_text) && truthy (strip link_target) then
    if is_likely_code_snippet line link_text link_target then links
    else links ++ [{| link_line_num := line_num; link_text_of := link_text;
                      link_target_of := link_target |}]
  else links.

(** The body of the loop over the numbered lines. *)
Definition scan_step (st : ScanState) (numbered : nat * str) : ScanState :=
  let (line_num, line) := numbered in
  if startswith (lit "```") (strip line) then
    {| in_code_block := negb (in_code_block st); links := links st |}
  else if in_code_block st then st
  else
    let matches := Re.findall_link line in
    {| in_code_block := in_code_block st;
       links := fold_left (match_step line_num line) matches (links st) |}.

(** [enumerate(lines, start)] *)
Definition enumerate (start : nat) (lines : list str) : list (nat * str) :=
  combine (seq start (List.length lines)) lines.

Definition scan_start : ScanState := {| in_code_block := false; links := [] |}.

Definition scan_content (content : str) : ScanState :=
  let lines := split_char 10%N content in
  fold_left scan_step (enumerate 1 lines) scan_start.

Definition extract_links_from_file (fs : FileSystem) (file_path : str)
    : list Link :=
  match read_text fs file_path with
  | Returned content => links (scan_content content)
  | Raised => []
  end.

(** ** The loop of main over the markdown files *)

Record Tally : Type := {
  total_links : nat;
  valid_links : nat;
  invalid_links : nat;
  missing_anchors : nat;
  external_unreachable : nat;
  all_link_results : list ValidationResult
}.

Definition tally_start : Tally :=
  {| total_links := 0; valid_links := 0; invalid_links := 0;
     missing_anchors := 0; external_unreachable := 0;
     all_link_results := [] |}.

(** One link of one file: validated, recorded and counted by its status. *)
Definition tally_link (fs : FileSystem) (md_file : str) (t : Tally)
    (l : Link) : Tally :=
  let result :=
    validate_link fs md_file (link_line_num l) (link_text_of l)
      (link_target_of l) in
  let st := status result in
  {| total_links := total_links t + 1;
     valid_links :=
       if str_eqb st (lit "valid") then valid_links t + 1 else valid_links t;
     invalid_links :=
       if str_eqb st (lit "valid") then invalid_links t
       else if str_eqb st (lit "invalid") then invalid_links t + 1
       else invalid_links t;
     missing_anchors :=
       if str_eqb st (lit "valid") then missing_anchors t
       else if str_eqb st (lit "invalid") then missing_anchors t
       else if str_eqb st (lit "missing-anchor") then missing_anchors t + 1
       else missing_anchors t;
     external_unreachable :=
       if str_eqb st (lit "valid") then external_unreachable t
       else if str_eqb st (lit "invalid") then external_unreachable t
       else if str_eqb st (lit "missing-anchor") then external_unreachable t
       else if str_eqb st (lit "external-unreachable")
            then external_unreachable t + 1
       else external_unreachable t;
     all_link_results := all_link_results t ++ [result] |}.

Definition tally_file (fs : FileSystem) (t : Tally) (md_file : str) : Tally :=
  let links := extract_links_from_file fs md_file in
  fold_left (tally_link fs md_file) links t.

Definition tally_files (fs : FileSystem) (md_files : list str) : Tally :=
  fold_left (tally_file fs) md_files tally_start.

(** ** The folding in the words of its description

    The five steps as they are described: lowercasing, deletion of every
    character that is not a lowercase letter, a digit, whitespace or a hyphen,
    one hyphen for each maximal run of whitespace, one hyphen for each
    maximal run of hyphens, and no hyphens left at either end. *)

Module FoldSpec.

Definition is_lowercase_letter (c : char) : bool := ((97 <=? c) && (c <=? 122))%N.
Definition is_digit (c : char) : bool := ((48 <=? c) && (c <=? 57))%N.
Definition is_hyphen (c : char) : bool := (c =? 45)%N.

Definition delete_others (s : str) : str :=
  filter (fun c => is_lowercase_letter c || is_digit c || is_space c
                   || is_hyphen c) s.

(** The maximal runs of a string: it is cut wherever membership in the
    class changes, and each piece is tagged with that membership. *)
Fixpoint runs (cls : char -> bool) (s : str) : list (bool * str) :=
  match s with
  | [] => []
  | c :: s' =>
      match runs cls s' with
      | (b, run) :: more =>
          if Bool.eqb b (cls c) then (b, c :: run) :: more
          else (cls c, [c]) :: (b, run) :: more
      | [] => [(cls c, [c])]
      end
  end.

Definition replace_runs (cls : char -> bool) (repl s : str) : str :=
  flat_map (fun r : bool * str => if fst r then repl else snd r) (runs cls s).

Definition hyphenate_whitespace (s : str) : str :=
  replace_runs is_space [45%N] s.

Definition collapse_hyphens (s : str) : str :=
  replace_runs is_hyphen [45%N] s.

Definition trim_hyphens (s : str) : str :=
  rev (lstrip_by is_hyphen (rev (lstrip_by is_hyphen s))).

Definition fold (heading : str) : str :=
  trim_hyphens
    (collapse_hyphens (hyphenate_whitespace (delete_others (lower heading)))).

End FoldSpec.

(** ** The shape of a link target, for the statements about the resolver *)

(** The first two rules of the resolver do not apply. *)
Definition not_external (link_target : str) : Prop :=
  startswith (lit "http://") link_target = false
  /\ startswith (lit "https://") link_target = false.

Definition relative_file (link_target : str) : Prop :=
  not_external link_target
  /\ startswith (lit "#") link_target = false
  /\ (startswith (lit "./") link_target = true
      \/ count_char 47%N link_target <= 1).

(** The target without its anchor suffix, which starts at the first [#],
    and the suffix behind that [#]. *)
Fixpoint before_hash (s : str) : str :=
  match s with
  | [] => []
  | c :: s' => if char_eqb c 35%N then [] else c :: before_hash s'
  end.

Fixpoint after_hash (s : str) : str :=
  match s with
  | [] => []
  | c :: s' => if char_eqb c 35%N then s' else after_hash s'
  end.

(** The file part: no anchor suffix and no leading [./]. *)
Definition file_part_of (link_target : str) : str :=
  let f := before_hash link_target in
  if startswith (lit "./") f then skipn 2 f else f.

(** The suggestion of the last rule. *)
Definition unsupported_suggestion : str :=
  lit "Link format not supported. Use relative links (./file.md) for local files.".

(** A file system with no file at all: every read raises and no path
    exists. *)
Definition empty_fs : FileSystem :=
  {| read_text := fun _ => Raised;
     lines_before_failure := fun _ => [];
     path_exists := fun _ => false;
     exists_raises := fun _ => false;
     blueprint_path := fun file_part => lit "blueprint/" ++ file_part |}.

(** A file system with one readable file. *)
Definition single_file_fs (name content : str) : FileSystem :=
  {| read_text := fun p => if str_eqb p name then Returned content else Raised;
     lines_before_failure := fun _ => [];
     path_exists := fun p => str_eqb p name;
     exists_raises := fun _ => false;
     blueprint_path := fun file_part => lit "blueprint/" ++ file_part |}.

(** A file system given by the list of its files, all readable. *)
Fixpoint lookup_file (files : list (str * str)) (p : str) : option str :=
  match files with
  | [] => None
  | (name, content) :: rest =>
      if str_eqb p name then Some content else lookup_file rest p
  end.

Definition listed_fs (files : list (str * str)) : FileSystem :=
  {| read_text := fun p =>
       match lookup_file files p with
       | Some content => Returned content
       | None => Raised
       end;
     lines_before_failure := fun _ => [];
     path_exists := fun p =>
       match lookup_file files p with
       | Some _ => true
       | None => false
       end;
     exists_raises := fun _ => false;
     blueprint_path := fun file_part => lit "blueprint/" ++ file_part |}.

(** A file system with one file that exists and cannot be read. *)
Definition locked_file_fs (name : str) : FileSystem :=
  {| read_text := fun _ => Raised;
     lines_before_failure := fun _ => [];
     path_exists := fun p => str_eqb p name;
     exists_raises := fun _ => false;
     blueprint_path := fun file_part => lit "blueprint/" ++ file_part |}.

(** A file system with one file that exists and whose read fails after the
    lines [delivered]. *)
Definition broken_file_fs (name : str) (delivered : list str) : FileSystem :=
  {| read_text := fun _ => Raised;
     lines_before_failure :=
       fun p => if str_eqb p name then delivered else [];
     path_exists := fun p => str_eqb p name;
     exists_raises := fun _ => false;
     blueprint_path := fun file_part => lit "blueprint/" ++ file_part |}.

(** A file system in which [Path.exists] raises on one path. *)
Definition faulty_stat_fs (name : str) : FileSystem :=
  {| read_text := fun _ => Raised;
     lines_before_failure := fun _ => [];
     path_exists := fun _ => false;
     exists_raises := fun p => str_eqb p name;
     blueprint_path := fun file_part => lit "blueprint/" ++ file_part |}.

(** Whether a line toggles the fence flag. *)
Definition is_fence (line : str) : bool := startswith (lit "```") (strip line).

Definition count_fences (lines : list str) : nat :=
  List.length (filter is_fence lines).

(** The text of a heading line: its stripped form without the leading run of
    [#], without the whitespace behind the run and without trailing
    whitespace. *)
Definition heading_text (line : str) : str :=
  rstrip (lstrip_by is_space (lstrip_by (char_eqb 35%N) (strip line))).

(** ** Predicates on strings and lines *)

(** The string does not start with a character of the class. *)
Definition hd_not (p : char -> bool) (s : str) : Prop :=
  match s with
  | [] => True
  | c :: _ => p c = false
  end.

(** The hyphen class of the folding. *)
Definition hy (c : char) : bool := char_eqb c 45%N.

(** What is left after the folding: lowercase letters, digits and
    hyphens. *)
Definition slug_char (c : char) : bool :=
  FoldSpec.is_lowercase_letter c || FoldSpec.is_digit c || hy c.

Fixpoint no_adjacent (p : char -> bool) (s : str) : Prop :=
  match s with
  | [] => True
  | c :: t => (p c = true -> hd_not p t) /\ no_adjacent p t
  end.

(** The headings one line contributes. *)
Definition headings_of_line (line : str) : list str :=
  if startswith (lit "#") (strip line) then
    if truthy (heading_text line) then [heading_text line] else []
  else [].

(** A line lies strictly between a fence-opening line and the line that
    closes that fence: the opening line comes after an even number of fence
    lines, and no fence line stands between it and the closing line. *)
Definition strictly_inside_fence (lines : list str) (line_num : nat) : Prop :=
  exists before opening inside closing after,
    lines = before ++ opening :: inside ++ closing :: after
    /\ Nat.even (count_fences before) = true
    /\ is_fence opening = true
    /\ count_fences inside = 0
    /\ is_fence closing = true
    /\ List.length before + 1 < line_num
    /\ line_num <= List.length before + 1 + List.length inside.

(** A document from its lines, each closed by a newline. *)
Definition text_of_lines (lines : list string) : str :=
  flat_map (fun l => lit l ++ [10%N]) lines.

(** A document with a link inside a fenced block and one behind it. *)
Definition fenced_link_doc : str :=
  text_of_lines ["```"; "[a](b)"; "```"; "[c](d)"]%string.

(** A document whose only heading line stands inside a fenced block. *)
Definition fenced_heading_doc : str :=
  text_of_lines ["```"; "# Setup"; "```"; "[go](#setup)"]%string.

(** The two documents of the end-to-end scenario. *)
Definition scenario_fs : FileSystem :=
  listed_fs
    [(lit "blueprint/A.md",
      text_of_lines
        ["## Intro"; "[See Intro](#intro)"; "[Other](./B.md#missing)"]%string);
     (lit "blueprint/B.md", text_of_lines ["## Section One"]%string)].

(** ** Exceptions that leave the resolver

    The only call of [validate_link] that can raise is [Path.exists]; the
    reads are inside the [try] of [extract_headings].  [link_status_run] is
    the chain of conditions with that exception written out. *)

Definition stat (fs : FileSystem) (p : str) : outcome bool :=
  if exists_raises fs p then Raised else Returned (path_exists fs p).

Definition link_status_run (fs : FileSystem) (source_file link_target : str)
    : outcome (str * str) :=
  if startswith_any [lit "http://"; lit "https://"] link_target then
    Returned (lit "valid", lit "")
  else if startswith (lit "#") link_target then
    let anchor := tl link_target in
    if anchor_exists fs source_file anchor then Returned (lit "valid", lit "")
    else
      Returned
        (lit "missing-anchor",
         lit "Anchor '#" ++ anchor ++ lit "' not found in " ++ source_file
         ++ lit ". Check heading exists and anchor format.")
  else if startswith (lit "./") link_target
          || (negb (contains (lit "/") link_target)
              || (count_char 47%N link_target =? 1)) then
    let (file_part, anchor_part) :=
      if contains (lit "#") link_target then split_once 35%N link_target
      else (link_target, lit "") in
    let file_part :=
      if startswith (lit "./") file_part then skipn 2 file_part
      else file_part in
    let full_file_path := blueprint_path fs file_part in
    match stat fs full_file_path with
    | Raised => Raised
    | Returned true =>
        if truthy anchor_part then
          if anchor_exists fs full_file_path anchor_part then
            Returned (lit "valid", lit "")
          else
            Returned
              (lit "missing-anchor",
               lit "Anchor '#" ++ anchor_part ++ lit "' not found in "
               ++ full_file_path
               ++ lit ". Check heading exists and anchor format.")
        else Returned (lit "valid", lit "")
    | Returned false =>
        if endswith_any image_suffixes file_part then
          Returned (lit "valid", lit "")
        else
          Returned
            (lit "invalid",
             lit "File '" ++ file_part
             ++ lit "' does not exist in blueprint/ directory.")
    end
  else
    Returned
      (lit "invalid",
       lit "Link format not supported. Use relative links (./file.md) for local files.").

Definition validate_link_run (fs : FileSystem) (source_file : str)
    (line_num : nat) (link_text link_target : str)
    : outcome ValidationResult :=
  match link_status_run fs source_file link_target with
  | Returned (status, suggestion) =>
      Returned
        {| file := source_file; line := line_num; text := link_text;
           link := link_target; status := status; suggestion := suggestion |}
  | Raised => Raised
  end.

(** The path [Path.exists] is called on, when the third rule is reached. *)
Definition exists_call (fs : FileSystem) (link_target : str) : option str :=
  if startswith_any [lit "http://"; lit "https://"] link_target then None
  else if startswith (lit "#") link_target then None
  else if startswith (lit "./") link_target
          || (negb (contains (lit "/") link_target)
              || (count_char 47%N link_target =? 1))
  then Some (blueprint_path fs (file_part_of link_target))
  else None.

Definition resolution_raises (fs : FileSystem) (link_target : str) : bool :=
  match exists_call fs link_target with
  | Some p => exists_raises fs p
  | None => false
  end.

(** The loop of main with the exception of a resolution written out: it
    ends the loop. *)
Definition tally_link_run (fs : FileSystem) (md_file : str)
    (t : outcome Tally) (l : Link) : outcome Tally :=
  match t with
  | Raised => Raised
  | Returned t =>
      match validate_link_run fs md_file (link_line_num l) (link_text_of l)
              (link_target_of l) with
      | Returned _ => Returned (tally_link fs md_file t l)
      | Raised => Raised
      end
  end.



(** ** The exit status of main

    [main] leaves with status 1 when the directory [blueprint] is missing,
    returns after the empty report when no markdown file is found, and
    otherwise leaves with status 0 exactly when no link is broken.  An
    exception that nothing catches ends the program with status 1: that of
    [Path.exists], and that of any other effect of [main], which are the
    printing, [os.getcwd], [datetime.now], the glob and the writing of the
    report.  [effects_raise] tells that one of these other effects raises;
    [md_files] is the result of the glob. *)



(** A link as it is written: the text in square brackets, the target in
    parentheses. *)
Definition render_link (link_text link_target : str) : str :=
  [91%N] ++ link_text ++ [93%N; 40%N] ++ link_target ++ [41%N].

(** The order of links by the number of their line. *)
Definition by_line (a b : Link) : Prop := link_line_num a <= link_line_num b.

(** The result of one link of a file. *)
Definition result_of (fs : FileSystem) (md_file : str) (l : Link)
    : ValidationResult :=
  validate_link fs md_file (link_line_num l) (link_text_of l)
    (link_target_of l).

(** The number of results with a given status. *)
Definition count_status (st : str) (results : list ValidationResult) : nat :=
  List.length (filter (fun r => str_eqb (status r) st) results).

(** * self_validate.py

    The checks of [AkaoSelfValidator] that read a file as text.  Each one
    appends to [self.violations]; the list is passed in and returned.  The
    read of a file gives its text or the message of the exception it
    raised, which the handler of the check puts into the violation. *)

Module SelfValidate.

Inductive read_result : Type :=
| Text (content : str)
| Failure (message : str).

(** [s.split()]: the maximal runs of characters that are not whitespace. *)
Fixpoint split_whitespace (s : str) : list str :=
  match s with
  | [] => []
  | c :: s' =>
      if is_space c then split_whitespace s'
      else
        match s' with
        | [] => [[c]]
        | d :: _ =>
            if is_space d then [c] :: split_whitespace s'
            else
              match split_whitespace s' with
              | w :: ws => (c :: w) :: ws
              | [] => [[c]]
              end
        end
  end.

(** [lines.index(line)]: the position of the first line equal to [line]. *)
Fixpoint index (line : str) (lines : list str) : nat :=
  match lines with
  | [] => 0
  | l :: rest => if str_eqb l line then 0 else S (index line rest)
  end.

(** [lines[a:b]] for [a] and [b] within the list. *)
Definition slice (a b : nat) (lines : list str) : list str :=
  firstn (b - a) (skipn a lines).

(** The three quotation marks of a docstring. *)
Definition docstring_mark : str := [34%N; 34%N; 34%N].

(** [_check_cpp_structure] *)
Definition _check_cpp_structure (read : str -> read_result) (cpp_file : str)
    (violations : list str) : list str :=
  match read cpp_file with
  | Text content =>
      let violations :=
        if negb (startswith (lit "// Akao") content)
        then violations ++ [lit "Missing Akao header comment: " ++ cpp_file]
        else violations in
      let violations :=
        if negb (contains (lit "#pragma once") content)
        then violations ++ [lit "Missing #pragma once: " ++ cpp_file]
        else violations in
      if negb (contains (lit "namespace akao") content)
      then violations ++ [lit "Missing akao namespace: " ++ cpp_file]
      else violations
  | Failure e =>
      violations
      ++ [lit "Failed to read C++ file " ++ cpp_file ++ lit ": " ++ e]
  end.

(** [_check_python_documentation] *)
Definition _check_python_documentation (read : str -> read_result)
    (py_file : str) (violations : list str) : list str :=
  match read py_file with
  | Text content =>
      let violations :=
        if negb (contains docstring_mark (firstn 500 content))
        then violations ++ [lit "Missing docstring: " ++ py_file]
        else violations in
      if negb (contains (lit "Akao") (firstn 500 content))
      then violations ++ [lit "Missing Akao reference: " ++ py_file]
      else violations
  | Failure e =>
      violations
      ++ [lit "Failed to read Python file " ++ py_file ++ lit ": " ++ e]
  end.

(** [_check_yaml_documentation]; the second line is looked at only when
    there are two lines. *)
Definition _check_yaml_documentation (read : str -> read_result)
    (yaml_file : str) (violations : list str) : list str :=
  match read yaml_file with
  | Text content =>
      let lines := file_lines content in
      if (List.length lines <? 2)
         || negb (startswith (lit "# Akao") (nth 1 lines []))
      then violations ++ [lit "Missing header comment: " ++ yaml_file]
      else violations
  | Failure e =>
      violations
      ++ [lit "Failed to read YAML file " ++ yaml_file ++ lit ": " ++ e]
  end.

(** [_check_cpp_documentation].  The state of its loop over the lines: the
    flag [in_class] and the violations, or the exception that ended the
    loop. *)
Inductive class_scan : Type :=
| Scanning (in_class : bool) (violations : list str)
| Stopped (message : str) (violations : list str).

(** The second word of the first line that starts a class; the two
    subscripts raise when there is no such line or no second word. *)
Definition class_name (lines : list str) : option str :=
  match filter (fun l => startswith (lit "class ") (strip l)) lines with
  | [] => None
  | l :: _ =>
      match split_whitespace l with
      | _ :: name :: _ => Some name
      | _ => None
      end
  end.

Definition class_step (lines : list str) (cpp_file : str) (st : class_scan)
    (line : str) : class_scan :=
  match st with
  | Stopped _ _ => st
  | Scanning in_class violations =>
      if startswith (lit "class ") (strip line)
         && negb (contains (lit "public:") line)
      then Scanning true violations
      else if in_class && startswith (lit "public:") (strip line) then
        let i := index line lines in
        if negb (existsb (contains (lit "///"))
                   (slice (Nat.max 0 (i - 5)) i lines))
        then
          match class_name lines with
          | Some name =>
              Scanning false
                (violations
                 ++ [lit "Missing class documentation for " ++ name
                     ++ lit ": " ++ cpp_file])
          | None => Stopped (lit "list index out of range") violations
          end
        else Scanning false violations
      else Scanning in_class violations
  end.

Definition _check_cpp_documentation (read : str -> read_result)
    (cpp_file : str) (violations : list str) : list str :=
  match read cpp_file with
  | Text content =>
      let lines := file_lines content in
      let violations :=
        if (List.length lines <? 3)
           || negb (startswith (lit "// Akao") (nth 0 lines []))
        then violations ++ [lit "Missing proper header: " ++ cpp_file]
        else violations in
      match fold_left (class_step lines cpp_file) lines
              (Scanning false violations) with
      | Scanning _ violations => violations
      | Stopped e violations =>
          violations
          ++ [lit "Failed to read C++ file " ++ cpp_file ++ lit ": " ++ e]
      end
  | Failure e =>
      violations
      ++ [lit "Failed to read C++ file " ++ cpp_file ++ lit ": " ++ e]
  end.

(** A reader that knows one file. *)
Definition one_file (name content : str) (p : str) : read_result :=
  if str_eqb p name then Text content
  else Failure (lit "[Errno 2] No such file or directory").

End SelfValidate.

(** * Properties *)

(** ** Strings *)

Lemma char_eqb_eq (a b : char) : char_eqb a b = true <-> a = b.
Proof. apply N.eqb_eq. Qed.

Lemma char_eqb_refl (a : char) : char_eqb a a = true.
Proof. apply N.eqb_refl. Qed.

Lemma str_eqb_eq (a b : str) : str_eqb a b = true <-> a = b.
Proof.
  revert b; induction a as [|x a IH]; intros [|y b]; simpl;
    try (split; [discriminate | discriminate]); [tauto|].
  rewrite andb_true_iff, char_eqb_eq, IH.
  split; [intros [-> ->]; reflexivity | intros H; inversion H; auto].
Qed.

Lemma str_eqb_refl (a : str) : str_eqb a a = true.
Proof. apply str_eqb_eq; reflexivity. Qed.

Lemma startswith_app (p s : str) : startswith p (p ++ s) = true.
Proof.
  induction p as [|x p IH]; simpl; [reflexivity|].
  rewrite char_eqb_refl; exact IH.
Qed.

Lemma startswith_prefix (p s : str) :
  startswith p s = true -> exists r, s = p ++ r.
Proof.
  revert s; induction p as [|x p IH]; intros s H; simpl in *.
  - exists s; reflexivity.
  - destruct s as [|y s]; [discriminate|].
    apply andb_true_iff in H; destruct H as [E H].
    apply char_eqb_eq in E; subst y.
    destruct (IH _ H) as [r ->]; exists r; reflexivity.
Qed.

Lemma contains_char_count (c : char) (s : str) :
  contains [c] s = negb (count_char c s =? 0).
Proof.
  unfold count_char; induction s as [|x s IH]; simpl; [reflexivity|].
  simpl in IH. rewrite (N.eqb_sym c x : char_eqb c x = char_eqb x c).
  destruct (char_eqb x c); simpl; [reflexivity|exact IH].
Qed.

(** ** The strips *)

Lemma lstrip_by_hd_not p s : hd_not p (lstrip_by p s).
Proof.
  induction s as [|c s IH]; simpl; [exact I|].
  destruct (p c) eqn:E; [exact IH | exact E].
Qed.

Lemma lstrip_by_fixed p s : hd_not p s -> lstrip_by p s = s.
Proof. destruct s as [|c s]; simpl; [reflexivity | intros ->; reflexivity]. Qed.

Lemma lstrip_by_suffix p s : exists l, s = l ++ lstrip_by p s.
Proof.
  induction s as [|c s [l IH]]; simpl; [exists []; reflexivity|].
  destruct (p c); [exists (c :: l); simpl; congruence | exists []; reflexivity].
Qed.

Lemma rstrip_by_prefix p s : exists l, s = rstrip_by p s ++ l.
Proof.
  induction s as [|c s [l IH]]; simpl; [exists []; reflexivity|].
  destruct (rstrip_by p s) as [|d r] eqn:E.
  - destruct (p c); [exists (c :: s) | exists s]; reflexivity.
  - exists l; simpl in *; congruence.
Qed.

Lemma rstrip_by_hd_not p s : hd_not p s -> hd_not p (rstrip_by p s).
Proof.
  destruct s as [|c s]; simpl; [trivial|]; intros H.
  destruct (rstrip_by p s); [rewrite H|]; exact H.
Qed.

Lemma rstrip_by_idem p s : rstrip_by p (rstrip_by p s) = rstrip_by p s.
Proof.
  induction s as [|c s IH]; simpl; [reflexivity|].
  destruct (rstrip_by p s) as [|d r] eqn:E.
  - destruct (p c) eqn:Ec; simpl; [reflexivity | rewrite Ec; reflexivity].
  - change (rstrip_by p (c :: d :: r)) with
      (match rstrip_by p (d :: r) with
       | [] => if p c then [] else [c]
       | x :: r' => c :: x :: r'
       end).
    rewrite IH; reflexivity.
Qed.

Lemma strip_by_idem p s : strip_by p (strip_by p s) = strip_by p s.
Proof.
  unfold strip_by.
  rewrite (lstrip_by_fixed p (rstrip_by p (lstrip_by p s))).
  - apply rstrip_by_idem.
  - apply rstrip_by_hd_not, lstrip_by_hd_not.
Qed.

Lemma strip_by_hd_not p s : hd_not p (strip_by p s).
Proof. apply rstrip_by_hd_not, lstrip_by_hd_not. Qed.

Lemma strip_by_infix p s : exists l r, s = l ++ strip_by p s ++ r.
Proof.
  unfold strip_by.
  destruct (lstrip_by_suffix p s) as [l Hl].
  destruct (rstrip_by_prefix p (lstrip_by p s)) as [r Hr].
  exists l, r; rewrite <- Hr; exact Hl.
Qed.

Lemma lstrip_by_snoc p l c :
  lstrip_by p (l ++ [c]) =
  match lstrip_by p l with
  | [] => if p c then [] else [c]
  | r => r ++ [c]
  end.
Proof.
  induction l as [|x l IH]; simpl; [reflexivity|].
  destruct (p x); [exact IH | reflexivity].
Qed.

Lemma rstrip_by_rev p s : rstrip_by p s = rev (lstrip_by p (rev s)).
Proof.
  induction s as [|c s IH]; simpl; [reflexivity|].
  rewrite lstrip_by_snoc, IH.
  destruct (lstrip_by p (rev s)) as [|d r]; simpl.
  - destruct (p c); reflexivity.
  - rewrite rev_app_distr; simpl.
    destruct (rev r ++ [d]) eqn:E; [|reflexivity].
    destruct (rev r); discriminate.
Qed.

(** ** The substitutions *)

Lemma sub_class_delete (keep : char -> bool) (s : str) :
  Re.sub_class (fun c => negb (keep c)) [] s = filter keep s.
Proof.
  unfold Re.sub_class; induction s as [|c s IH]; simpl; [reflexivity|].
  destruct (keep c); simpl; congruence.
Qed.

Lemma runs_head cls c s :
  exists run more, FoldSpec.runs cls (c :: s) = (cls c, run) :: more.
Proof.
  simpl; destruct (FoldSpec.runs cls s) as [|[b run] more]; [eauto|].
  destruct (Bool.eqb b (cls c)) eqn:E; [|eauto].
  apply eqb_prop in E; subst b; eauto.
Qed.

Lemma runs_cons cls c s :
  FoldSpec.runs cls (c :: s) =
  match FoldSpec.runs cls s with
  | (b, run) :: more =>
      if Bool.eqb b (cls c) then (b, c :: run) :: more
      else (cls c, [c]) :: (b, run) :: more
  | [] => [(cls c, [c])]
  end.
Proof. reflexivity. Qed.

Lemma replace_runs_outside cls repl c s :
  cls c = false ->
  FoldSpec.replace_runs cls repl (c :: s) = c :: FoldSpec.replace_runs cls repl s.
Proof.
  intros Hc; unfold FoldSpec.replace_runs; rewrite runs_cons.
  destruct (FoldSpec.runs cls s) as [|[b run] more]; rewrite Hc; simpl.
  - reflexivity.
  - destruct b; simpl; rewrite ?Hc; reflexivity.
Qed.

Lemma replace_runs_extend cls repl c d s :
  cls c = true -> cls d = true ->
  FoldSpec.replace_runs cls repl (c :: d :: s)
  = FoldSpec.replace_runs cls repl (d :: s).
Proof.
  intros Hc Hd; unfold FoldSpec.replace_runs.
  rewrite (runs_cons cls c (d :: s)).
  destruct (runs_head cls d s) as (run & more & E).
  rewrite E, Hd, Hc; reflexivity.
Qed.

Lemma replace_runs_single cls repl c s :
  cls c = true -> hd_not cls s ->
  FoldSpec.replace_runs cls repl (c :: s)
  = repl ++ FoldSpec.replace_runs cls repl s.
Proof.
  intros Hc Hs; unfold FoldSpec.replace_runs; rewrite runs_cons.
  destruct s as [|d s].
  - simpl; rewrite Hc; reflexivity.
  - destruct (runs_head cls d s) as (run & more & E).
    simpl in Hs. rewrite E, Hs, Hc; reflexivity.
Qed.

Lemma replace_runs_inside cls repl s : forall c,
  cls c = true ->
  FoldSpec.replace_runs cls repl (c :: s)
  = repl ++ FoldSpec.replace_runs cls repl (lstrip_by cls s).
Proof.
  induction s as [|d s IH]; intros c Hc.
  - apply replace_runs_single; [exact Hc | exact I].
  - cbn [lstrip_by]. destruct (cls d) eqn:Hd.
    + rewrite replace_runs_extend by assumption. apply IH; exact Hd.
    + apply replace_runs_single; [exact Hc | exact Hd].
Qed.

Lemma sub_plus_from_runs cls repl b s :
  Re.sub_plus_from cls repl b s
  = FoldSpec.replace_runs cls repl (if b then lstrip_by cls s else s).
Proof.
  revert b; induction s as [|c s IH]; intros b.
  - destruct b; reflexivity.
  - simpl. destruct (cls c) eqn:Hc.
    + destruct b.
      * apply IH.
      * rewrite (IH true), replace_runs_inside by exact Hc; reflexivity.
    + rewrite (IH false).
      destruct b; rewrite replace_runs_outside by exact Hc; reflexivity.
Qed.

Lemma sub_plus_runs cls repl s :
  Re.sub_plus cls repl s = FoldSpec.replace_runs cls repl s.
Proof. apply (sub_plus_from_runs cls repl false). Qed.

Lemma strip_hyphen_trim (s : str) :
  strip_chars (lit "-") s = FoldSpec.trim_hyphens s.
Proof.
  unfold strip_chars, strip_by, FoldSpec.trim_hyphens.
  rewrite rstrip_by_rev.
  assert (E : forall t, lstrip_by (fun c => existsb (char_eqb c) (lit "-")) t
                        = lstrip_by FoldSpec.is_hyphen t).
  { induction t as [|c t IHt]; simpl; [reflexivity|].
    unfold FoldSpec.is_hyphen, char_eqb at 1.
    rewrite orb_false_r.
    change (N_of_ascii "-") with 45%N.
    destruct (c =? 45)%N; [exact IHt | reflexivity]. }
  rewrite !E; reflexivity.
Qed.

Lemma generate_github_anchor_spec (heading : str) :
  generate_github_anchor heading = FoldSpec.fold heading.
Proof.
  unfold generate_github_anchor, FoldSpec.fold.
  rewrite strip_hyphen_trim, !sub_plus_runs, sub_class_delete.
  reflexivity.
Qed.

(** ** Folded strings *)

Lemma lstrip_by_ext p q s :
  (forall c, p c = q c) -> lstrip_by p s = lstrip_by q s.
Proof.
  intros E; induction s as [|c s IH]; simpl; [reflexivity|].
  rewrite E, IH; reflexivity.
Qed.

Lemma rstrip_by_ext p q s :
  (forall c, p c = q c) -> rstrip_by p s = rstrip_by q s.
Proof.
  intros E; induction s as [|c s IH]; simpl; [reflexivity|].
  rewrite E, IH; reflexivity.
Qed.

Lemma strip_chars_hyphen s : strip_chars (lit "-") s = strip_by hy s.
Proof.
  assert (E : forall c, existsb (char_eqb c) (lit "-") = hy c)
    by (intros c; simpl; apply orb_false_r).
  unfold strip_chars, strip_by.
  rewrite (lstrip_by_ext _ hy s E).
  apply rstrip_by_ext; exact E.
Qed.

Lemma slug_char_keeps c : slug_char c = true -> anchor_keeps c = true.
Proof.
  unfold slug_char, anchor_keeps, FoldSpec.is_lowercase_letter,
    FoldSpec.is_digit, hy, char_eqb.
  intros H; repeat (apply orb_true_iff in H; destruct H as [H|H]);
    rewrite H, ?orb_true_r; reflexivity.
Qed.

Lemma slug_char_not_space c : slug_char c = true -> is_space c = false.
Proof.
  unfold slug_char, is_space, FoldSpec.is_lowercase_letter,
    FoldSpec.is_digit, hy, char_eqb.
  intros H.
  repeat (apply orb_true_iff in H; destruct H as [H|H]);
    repeat match goal with
      | H : (_ && _) = true |- _ => apply andb_true_iff in H; destruct H
      | H : (_ <=? _)%N = true |- _ => apply N.leb_le in H
      | H : (_ =? _)%N = true |- _ => apply N.eqb_eq in H
      end;
    repeat (apply orb_false_iff; split);
    try (apply N.eqb_neq; lia);
    apply andb_false_iff;
    first [ left; apply N.leb_gt; lia | right; apply N.leb_gt; lia ].
Qed.

Lemma slug_char_lower c : slug_char c = true -> lower_char c = [c].
Proof.
  unfold slug_char, lower_char, FoldSpec.is_lowercase_letter,
    FoldSpec.is_digit, hy, char_eqb.
  intros H.
  assert (R : (45 <= c <= 45 \/ 48 <= c <= 57 \/ 97 <= c <= 122)%N).
  { repeat (apply orb_true_iff in H; destruct H as [H|H]);
      repeat match goal with
        | H : (_ && _) = true |- _ => apply andb_true_iff in H; destruct H
        | H : (_ <=? _)%N = true |- _ => apply N.leb_le in H
        | H : (_ =? _)%N = true |- _ => apply N.eqb_eq in H
        end; lia. }
  replace ((65 <=? c)%N && (c <=? 90)%N) with false.
  - replace (c =? 304)%N with false by (symmetry; apply N.eqb_neq; lia).
    replace (c =? 8490)%N with false by (symmetry; apply N.eqb_neq; lia).
    reflexivity.
  - symmetry; apply andb_false_iff.
    destruct (N.le_gt_cases c 64);
      [left; apply N.leb_gt; lia | right; apply N.leb_gt; lia].
Qed.

Lemma lower_slug s : Forall (fun c => slug_char c = true) s -> lower s = s.
Proof.
  induction 1 as [|c s Hc _ IH]; simpl; [reflexivity|].
  rewrite (slug_char_lower c Hc), IH; reflexivity.
Qed.

Lemma filter_fixed (keep : char -> bool) s :
  Forall (fun c => keep c = true) s -> filter keep s = s.
Proof.
  induction 1 as [|c s Hc _ IH]; simpl; [reflexivity|].
  rewrite Hc, IH; reflexivity.
Qed.

Lemma sub_plus_from_fixed cls repl b s :
  Forall (fun c => cls c = false) s -> Re.sub_plus_from cls repl b s = s.
Proof.
  intros H; revert b; induction H as [|c s Hc _ IH]; intros b; simpl;
    [reflexivity|].
  rewrite Hc, IH; reflexivity.
Qed.

Lemma sub_plus_from_Forall (Q : char -> Prop) cls repl b s :
  (forall c, In c s -> cls c = false -> Q c) ->
  Forall Q repl ->
  Forall Q (Re.sub_plus_from cls repl b s).
Proof.
  intros Hs Hr; revert b; induction s as [|c s IH]; intros b; simpl;
    [constructor|].
  assert (Hs' : forall x, In x s -> cls x = false -> Q x)
    by (intros x Hx; apply Hs; right; exact Hx).
  destruct (cls c) eqn:Hc.
  - destruct b; [apply IH, Hs'|].
    apply Forall_app; split; [exact Hr | apply IH, Hs'].
  - constructor; [apply Hs; [left; reflexivity | exact Hc] | apply IH, Hs'].
Qed.

Lemma collapse_no_adjacent s : forall b,
  no_adjacent hy (Re.sub_plus_from hy [45%N] b s)
  /\ (b = true -> hd_not hy (Re.sub_plus_from hy [45%N] b s)).
Proof.
  induction s as [|c s IH]; intros b; simpl; [split; [exact I | intros _; exact I]|].
  destruct (hy c) eqn:Hc.
  - destruct b.
    + apply IH.
    + split; [|discriminate].
      simpl; split; [intros _; apply (IH true); reflexivity | apply (IH true)].
  - split.
    + simpl; split; [rewrite Hc; discriminate | apply (IH false)].
    + intros _; exact Hc.
Qed.

Lemma collapse_fixed s : forall b,
  no_adjacent hy s -> (b = true -> hd_not hy s) ->
  Re.sub_plus_from hy [45%N] b s = s.
Proof.
  induction s as [|c s IH]; intros b Hs Hb; simpl; [reflexivity|].
  destruct Hs as [Hadj Hrest].
  destruct (hy c) eqn:Hc.
  - destruct b.
    + specialize (Hb eq_refl); simpl in Hb; congruence.
    + apply char_eqb_eq in Hc; subst c; simpl.
      f_equal; apply IH; [exact Hrest | intros _; apply Hadj; reflexivity].
  - f_equal; apply IH; [exact Hrest | discriminate].
Qed.

Lemma hd_not_app_l p s r : hd_not p (s ++ r) -> s <> [] -> hd_not p s.
Proof. destruct s; simpl; [congruence | trivial]. Qed.

Lemma no_adjacent_prefix p s r : no_adjacent p (s ++ r) -> no_adjacent p s.
Proof.
  induction s as [|c s IH]; simpl; [trivial|].
  intros [H1 H2]; split; [|apply IH; exact H2].
  intros Hc; destruct s; [exact I | exact (H1 Hc)].
Qed.

Lemma no_adjacent_suffix p l s : no_adjacent p (l ++ s) -> no_adjacent p s.
Proof. induction l as [|c l IH]; simpl; [trivial | intros [_ H]; auto]. Qed.

Lemma strip_by_no_adjacent p q s :
  no_adjacent p s -> no_adjacent p (strip_by q s).
Proof.
  destruct (strip_by_infix q s) as (l & r & E); intros H.
  rewrite E in H.
  apply no_adjacent_suffix in H; apply no_adjacent_prefix in H; exact H.
Qed.

Lemma strip_by_Forall (Q : char -> Prop) q s :
  Forall Q s -> Forall Q (strip_by q s).
Proof.
  destruct (strip_by_infix q s) as (l & r & E); intros H.
  rewrite E in H.
  apply Forall_app in H; destruct H as [_ H].
  apply Forall_app in H; destruct H as [H _]; exact H.
Qed.

(** The result of the folding has slug characters only, no two hyphens in
    a row and no hyphen at either end. *)
Lemma generate_github_anchor_shape heading :
  let a := generate_github_anchor heading in
  Forall (fun c => slug_char c = true) a
  /\ no_adjacent hy a
  /\ strip_by hy a = a.
Proof.
  unfold generate_github_anchor; cbv zeta.
  rewrite strip_chars_hyphen, sub_class_delete.
  set (kept := filter anchor_keeps (lower heading)).
  set (spaced := Re.sub_plus is_space (lit "-") kept).
  assert (Hspaced : Forall (fun c => slug_char c = true) spaced).
  { apply sub_plus_from_Forall.
    - intros c Hc Hs. apply filter_In in Hc; destruct Hc as [_ Hc].
      unfold anchor_keeps in Hc; rewrite Hs, orb_false_r in Hc.
      unfold slug_char; exact Hc.
    - repeat constructor. }
  repeat split.
  - apply strip_by_Forall, sub_plus_from_Forall.
    + intros c Hc _. rewrite Forall_forall in Hspaced; auto.
    + repeat constructor.
  - apply strip_by_no_adjacent, (collapse_no_adjacent spaced false).
  - apply strip_by_idem.
Qed.

Lemma generate_github_anchor_fixed a :
  Forall (fun c => slug_char c = true) a ->
  no_adjacent hy a -> strip_by hy a = a ->
  generate_github_anchor a = a.
Proof.
  intros Hslug Hadj Hstrip; unfold generate_github_anchor.
  rewrite strip_chars_hyphen, sub_class_delete, (lower_slug Hslug).
  rewrite filter_fixed
    by (eapply Forall_impl; [|exact Hslug]; apply slug_char_keeps).
  unfold Re.sub_plus at 2.
  rewrite sub_plus_from_fixed
    by (eapply Forall_impl; [|exact Hslug]; apply slug_char_not_space).
  change (strip_by hy (Re.sub_plus_from hy [45%N] false a) = a).
  rewrite (@collapse_fixed a false) by (auto; discriminate).
  exact Hstrip.
Qed.

(** ** The resolver *)

Lemma validate_link_status fs source_file line_num link_text link_target :
  status (validate_link fs source_file line_num link_text link_target)
  = fst (link_status fs source_file link_target).
Proof.
  unfold validate_link; destruct (link_status _ _ _); reflexivity.
Qed.

Lemma validate_link_suggestion fs source_file line_num link_text link_target :
  suggestion (validate_link fs source_file line_num link_text link_target)
  = snd (link_status fs source_file link_target).
Proof.
  unfold validate_link; destruct (link_status _ _ _); reflexivity.
Qed.

Lemma anchor_among_spec headings anchor :
  anchor_among headings anchor = true
  <-> exists heading,
        In heading headings /\ generate_github_anchor heading = anchor.
Proof.
  induction headings as [|h hs IH]; simpl.
  - split; [discriminate | intros (x & [] & _)].
  - destruct (str_eqb (generate_github_anchor h) anchor) eqn:E.
    + apply str_eqb_eq in E; split; [eauto | reflexivity].
    + rewrite IH; split.
      * intros (x & Hx & Ex); eauto.
      * intros (x & [<- | Hx] & Ex); [|eauto].
        apply str_eqb_eq in Ex; congruence.
Qed.

Lemma startswith_any_external link_target :
  startswith_any [lit "http://"; lit "https://"] link_target
  = startswith (lit "http://") link_target
    || startswith (lit "https://") link_target.
Proof. unfold startswith_any; simpl existsb; rewrite orb_false_r; reflexivity. Qed.

Lemma hash_not_external rest :
  startswith_any [lit "http://"; lit "https://"] (35%N :: rest) = false.
Proof. reflexivity. Qed.

Lemma split_at_hash link_target :
  (if contains (lit "#") link_target then split_once 35%N link_target
   else (link_target, lit ""))
  = (before_hash link_target, after_hash link_target).
Proof.
  change (lit "#") with [35%N]; change (lit "") with (@nil char).
  induction link_target as [|c t IH]; [reflexivity|].
  cbn [contains startswith split_once before_hash after_hash].
  rewrite (N.eqb_sym 35 c : char_eqb 35%N c = char_eqb c 35%N).
  destruct (char_eqb c 35%N); simpl; [reflexivity|].
  destruct (contains [35%N] t).
  - rewrite IH; reflexivity.
  - injection IH as E1 E2; congruence.
Qed.

Lemma relative_file_rule link_target :
  startswith (lit "./") link_target = true
  \/ count_char 47%N link_target <= 1 ->
  startswith (lit "./") link_target
  || (negb (contains (lit "/") link_target)
      || (count_char 47%N link_target =? 1)) = true.
Proof.
  intros [H|H]; [rewrite H; reflexivity|].
  change (lit "/") with [47%N]; rewrite contains_char_count, negb_involutive.
  destruct (count_char 47%N link_target) as [|[|n]]; simpl;
    rewrite ?orb_true_r; [reflexivity | reflexivity | lia].
Qed.

Lemma unsupported_rule link_target :
  startswith (lit "./") link_target = false ->
  2 <= count_char 47%N link_target ->
  startswith (lit "./") link_target
  || (negb (contains (lit "/") link_target)
      || (count_char 47%N link_target =? 1)) = false.
Proof.
  intros -> H.
  change (lit "/") with [47%N]; rewrite contains_char_count, negb_involutive.
  destruct (count_char 47%N link_target) as [|[|n]]; [lia | lia | reflexivity].
Qed.

(** What the third rule of the resolver computes, in terms of the file part
    and the anchor suffix of the target. *)
Lemma link_status_relative fs source_file link_target :
  relative_file link_target ->
  link_status fs source_file link_target =
  let file_part := file_part_of link_target in
  let anchor_part := after_hash link_target in
  let full_file_path := blueprint_path fs file_part in
  if path_exists fs full_file_path then
    if truthy anchor_part then
      if anchor_exists fs full_file_path anchor_part then
        (lit "valid", lit "")
      else
        (lit "missing-anchor",
         lit "Anchor '#" ++ anchor_part ++ lit "' not found in "
         ++ full_file_path ++ lit ". Check heading exists and anchor format.")
    else (lit "valid", lit "")
  else if endswith_any image_suffixes file_part then (lit "valid", lit "")
  else
    (lit "invalid",
     lit "File '" ++ file_part
     ++ lit "' does not exist in blueprint/ directory.").
Proof.
  intros ((H1 & H2) & H3 & H4); unfold link_status.
  rewrite startswith_any_external, H1, H2, H3, (relative_file_rule _ H4).
  cbn [orb]. rewrite split_at_hash. reflexivity.
Qed.

(** ** The heading extractor *)

Lemma heading_step_app headings line :
  heading_step headings line = headings ++ headings_of_line line.
Proof.
  unfold heading_step, headings_of_line, heading_text, Re.sub_heading_marker.
  change (lit "#") with [35%N].
  destruct (startswith [35%N] (strip line)); [|symmetry; apply app_nil_r].
  destruct (truthy _); [reflexivity | symmetry; apply app_nil_r].
Qed.

Lemma heading_loop lines : forall headings,
  fold_left heading_step lines headings
  = headings ++ flat_map headings_of_line lines.
Proof.
  induction lines as [|line lines IH]; intros headings; simpl.
  - symmetry; apply app_nil_r.
  - rewrite IH, heading_step_app, <- app_assoc; reflexivity.
Qed.

(** ** The link extractor *)

Lemma enumerate_cons n line lines :
  enumerate n (line :: lines) = (n, line) :: enumerate (S n) lines.
Proof. reflexivity. Qed.

Lemma enumerate_firstn k : forall n lines,
  firstn k (enumerate n lines) = enumerate n (firstn k lines).
Proof.
  induction k as [|k IH]; intros n [|line lines]; try reflexivity.
  rewrite enumerate_cons; simpl firstn.
  rewrite enumerate_cons, IH; reflexivity.
Qed.

Lemma count_fences_cons line lines :
  count_fences (line :: lines)
  = (if is_fence line then 1 else 0) + count_fences lines.
Proof. unfold count_fences; simpl; destruct (is_fence line); reflexivity. Qed.

Lemma count_fences_app a b :
  count_fences (a ++ b) = count_fences a + count_fences b.
Proof. unfold count_fences; rewrite filter_app, length_app; reflexivity. Qed.

Lemma count_fences_firstn k lines :
  count_fences (firstn k lines) <= count_fences lines.
Proof.
  rewrite <- (firstn_skipn k lines) at 2; rewrite count_fences_app; lia.
Qed.

Lemma scan_step_fence st n line :
  in_code_block (scan_step st (n, line))
  = xorb (in_code_block st) (is_fence line).
Proof.
  unfold scan_step, is_fence.
  destruct (startswith (lit "```") (strip line)); simpl.
  - destruct (in_code_block st); reflexivity.
  - destruct (in_code_block st) eqn:E; simpl; rewrite ?E; reflexivity.
Qed.

(** The fence flag after a scan: flipped once for each fence line. *)
Lemma scan_fence_state lines : forall n st,
  in_code_block (fold_left scan_step (enumerate n lines) st)
  = xorb (in_code_block st) (Nat.odd (count_fences lines)).
Proof.
  induction lines as [|line lines IH]; intros n st.
  - simpl; destruct (in_code_block st); reflexivity.
  - rewrite enumerate_cons; cbn [fold_left].
    rewrite IH, scan_step_fence, count_fences_cons.
    destruct (is_fence line); simpl Nat.add.
    + rewrite Nat.odd_succ, <- Nat.negb_odd.
      destruct (in_code_block st), (Nat.odd (count_fences lines)); reflexivity.
    + destruct (in_code_block st); reflexivity.
Qed.

(** The links the inner loop appends carry the number of the line and were
    let through by the filter. *)
Lemma match_loop_origin n line ms : forall acc l,
  In l (fold_left (match_step n line) ms acc) ->
  In l acc
  \/ (link_line_num l = n
      /\ is_likely_code_snippet line (link_text_of l) (link_target_of l)
         = false).
Proof.
  induction ms as [|[t g] ms IH]; intros acc l; simpl; [auto|].
  intros H; apply IH in H; destruct H as [H|H]; [|auto].
  destruct (truthy (strip t) && truthy (strip g)); [|auto].
  destruct (is_likely_code_snippet line t g) eqn:E; [auto|].
  apply in_app_or in H; destruct H as [H|[<-|[]]]; auto.
Qed.

(** Where a link of the scan comes from: a line that is no fence line, read
    while the fence flag was off, and passed by the filter. *)
Lemma scan_links_origin lines : forall n st l,
  In l (links (fold_left scan_step (enumerate n lines) st)) ->
  In l (links st)
  \/ exists i line,
       nth_error lines i = Some line
       /\ link_line_num l = n + i
       /\ is_fence line = false
       /\ xorb (in_code_block st) (Nat.odd (count_fences (firstn i lines)))
          = false
       /\ is_likely_code_snippet line (link_text_of l) (link_target_of l)
          = false.
Proof.
  induction lines as [|line lines IH]; intros n st l; [simpl; auto|].
  rewrite enumerate_cons; cbn [fold_left]; intros H.
  apply IH in H; destruct H as [H | (i & line' & Hi & Hn & Hf & Hx & Hc)].
  - unfold scan_step in H; fold (is_fence line) in H.
    destruct (is_fence line) eqn:Ef; [left; exact H|].
    destruct (in_code_block st) eqn:Eb; [left; exact H|].
    simpl in H. apply match_loop_origin in H; destruct H as [H | [Hn Hc]];
      [left; exact H|].
    right; exists 0, line; rewrite Nat.add_0_r; auto.
  - right; exists (S i), line'; repeat split; auto; [lia|].
    rewrite scan_step_fence in Hx.
    simpl firstn; rewrite count_fences_cons.
    destruct (is_fence line); simpl Nat.add; [|rewrite xorb_false_r in Hx; exact Hx].
    rewrite Nat.odd_succ, <- Nat.negb_odd.
    destruct (in_code_block st), (Nat.odd (count_fences (firstn i lines)));
      simpl in *; congruence.
Qed.

Lemma inside_fence_odd lines i :
  strictly_inside_fence lines (1 + i) ->
  Nat.odd (count_fences (firstn i lines)) = true.
Proof.
  intros (pre & op & mid & cl & post & -> & Hev & Hop & Hmid & _ & Hlo & Hhi).
  assert (Ei : i = List.length pre + S (i - S (List.length pre))) by lia.
  rewrite Ei, firstn_app_2. cbn [firstn].
  rewrite firstn_app, count_fences_app, count_fences_cons, Hop,
    count_fences_app.
  pose proof (count_fences_firstn (i - S (List.length pre)) mid) as Hle.
  replace (i - S (List.length pre) - List.length mid) with 0 by lia.
  cbn [firstn]. change (count_fences []) with 0.
  replace (count_fences (firstn (i - S (List.length pre)) mid)) with 0 by lia.
  rewrite !Nat.add_0_r, Nat.add_1_r, Nat.odd_succ; exact Hev.
Qed.

(** ** The loop of main *)

Lemma tally_link_results fs md_file ls : forall t,
  all_link_results (fold_left (tally_link fs md_file) ls t)
  = all_link_results t
    ++ map (fun l => validate_link fs md_file (link_line_num l)
                       (link_text_of l) (link_target_of l)) ls.
Proof.
  induction ls as [|l ls IH]; intros t; simpl; [symmetry; apply app_nil_r|].
  rewrite IH; simpl; rewrite <- app_assoc; reflexivity.
Qed.

(** The results of a run: one for each link of each file, in the order of the
    files and of the links. *)
Lemma tally_files_results fs md_files : forall t,
  all_link_results (fold_left (tally_file fs) md_files t)
  = all_link_results t
    ++ flat_map
         (fun md_file =>
            map (fun l => validate_link fs md_file (link_line_num l)
                            (link_text_of l) (link_target_of l))
              (extract_links_from_file fs md_file))
         md_files.
Proof.
  induction md_files as [|f fs' IH]; intros t; simpl;
    [symmetry; apply app_nil_r|].
  rewrite IH; unfold tally_file; rewrite tally_link_results, <- app_assoc.
  reflexivity.
Qed.

Lemma link_status_values fs source_file link_target :
  let st := fst (link_status fs source_file link_target) in
  st = lit "valid" \/ st = lit "invalid" \/ st = lit "missing-anchor".
Proof.
  unfold link_status.
  repeat match goal with
    | |- context [let (_, _) := ?p in _] => destruct p
    | |- context [if ?b then _ else _] => destruct b
    end; simpl; auto.
Qed.

Lemma tally_link_unreachable fs md_file t l :
  external_unreachable (tally_link fs md_file t l) = external_unreachable t.
Proof.
  unfold tally_link; cbn [external_unreachable].
  rewrite validate_link_status.
  destruct (link_status_values fs md_file (link_target_of l)) as [E|[E|E]];
    rewrite E; reflexivity.
Qed.

Lemma tally_files_unreachable fs md_files : forall t,
  external_unreachable (fold_left (tally_file fs) md_files t)
  = external_unreachable t.
Proof.
  induction md_files as [|f fs' IH]; intros t; simpl; [reflexivity|].
  rewrite IH; unfold tally_file.
  generalize (extract_links_from_file fs f); intros ls; revert t.
  induction ls as [|l ls IHl]; intros t; simpl; [reflexivity|].
  rewrite IHl; apply tally_link_unreachable.
Qed.

(** ** The resolver with its exception *)

Lemma link_status_run_spec fs source_file link_target :
  link_status_run fs source_file link_target
  = if resolution_raises fs link_target then Raised
    else Returned (link_status fs source_file link_target).
Proof.
  unfold link_status_run, link_status, resolution_raises, exists_call.
  destruct (startswith_any [lit "http://"; lit "https://"] link_target);
    [reflexivity|].
  destruct (startswith (lit "#") link_target).
  { cbv zeta; destruct (anchor_exists fs source_file (tl link_target));
      reflexivity. }
  destruct (startswith (lit "./") link_target
            || (negb (contains (lit "/") link_target)
                || (count_char 47%N link_target =? 1))); [|reflexivity].
  rewrite split_at_hash; unfold file_part_of, stat; cbv zeta.
  destruct (exists_raises fs _); [reflexivity|].
  destruct (path_exists fs _); [|destruct (endswith_any _ _); reflexivity].
  destruct (truthy (after_hash link_target)); [|reflexivity].
  destruct (anchor_exists fs _ _); reflexivity.
Qed.

Lemma validate_link_run_spec fs source_file line_num link_text link_target :
  validate_link_run fs source_file line_num link_text link_target
  = if resolution_raises fs link_target then Raised
    else Returned
           (validate_link fs source_file line_num link_text link_target).
Proof.
  unfold validate_link_run, validate_link; rewrite link_status_run_spec.
  destruct (resolution_raises fs link_target); [reflexivity|].
  destruct (link_status fs source_file link_target); reflexivity.
Qed.

Lemma anchor_only_never_raises fs anchor :
  resolution_raises fs (35%N :: anchor) = false.
Proof. reflexivity. Qed.

Lemma relative_file_raises fs link_target :
  relative_file link_target ->
  resolution_raises fs link_target
  = exists_raises fs (blueprint_path fs (file_part_of link_target)).
Proof.
  intros ((H1 & H2) & H3 & H4); unfold resolution_raises, exists_call.
  rewrite startswith_any_external, H1, H2, H3, (relative_file_rule _ H4).
  reflexivity.
Qed.

Lemma tally_link_run_spec fs md_file t l :
  tally_link_run fs md_file (Returned t) l
  = if resolution_raises fs (link_target_of l) then Raised
    else Returned (tally_link fs md_file t l).
Proof.
  unfold tally_link_run; rewrite validate_link_run_spec.
  destruct (resolution_raises fs (link_target_of l)); reflexivity.
Qed.

(** * The claims *)

(** C1: a link whose target starts with [#] is resolved against the
    headings of the source document.  The [#] is stripped, the status is
    [valid] exactly when some extracted heading folds to the anchor, and
    otherwise it is [missing-anchor] with a suggestion that names the anchor
    and the source document. *)
Theorem anchor_only_link_resolution fs source_file line_num link_text anchor :
  let r := validate_link fs source_file line_num link_text (35%N :: anchor) in
  let found :=
    exists heading,
      In heading (extract_headings fs source_file)
      /\ generate_github_anchor heading = anchor in
  (status r = lit "valid" <-> found)
  /\ ((found /\ status r = lit "valid")
      \/ (~ found
          /\ status r = lit "missing-anchor"
          /\ suggestion r
             = lit "Anchor '#" ++ anchor ++ lit "' not found in "
               ++ source_file
               ++ lit ". Check heading exists and anchor format.")).
Proof.
  cbv zeta. rewrite validate_link_status, validate_link_suggestion.
  unfold link_status. rewrite hash_not_external.
  change (startswith (lit "#") (35%N :: anchor)) with true.
  cbn [tl]. unfold anchor_exists.
  destruct (anchor_among (extract_headings fs source_file) anchor) eqn:E.
  - apply anchor_among_spec in E. split; [tauto | left; auto].
  - assert (N : ~ exists heading,
                    In heading (extract_headings fs source_file)
                    /\ generate_github_anchor heading = anchor).
    { intros H; apply anchor_among_spec in H; congruence. }
    cbn [fst snd]. split; [|right; auto].
    split; [discriminate | intros H; contradiction].
Qed.

(** C2: the anchor folding is the composition, in this order, of
    lowercasing, deleting every character that is not a lowercase letter, a
    digit, whitespace or a hyphen, replacing each maximal run of whitespace
    by one hyphen, collapsing each maximal run of hyphens to one hyphen, and
    trimming the hyphens at both ends; the four named headings fold to
    [hello-world], [multiple-spaces], [c-rust] and the empty string. *)
Theorem anchor_folder_steps :
  (forall heading, generate_github_anchor heading = FoldSpec.fold heading)
  /\ generate_github_anchor (lit "Hello, World!") = lit "hello-world"
  /\ generate_github_anchor (lit "  Multiple   Spaces  ")
     = lit "multiple-spaces"
  /\ generate_github_anchor (lit "C++ & Rust") = lit "c-rust"
  /\ generate_github_anchor (lit "") = lit "".
Proof.
  split; [exact generate_github_anchor_spec|].
  repeat split; reflexivity.
Qed.

(** C3: the scan of a document starts with the fence flag off, the flag
    after any number of lines is on exactly when an odd number of them were
    fence lines, and no extracted link carries the number of a line that
    lies strictly between a fence-opening line and its closing line. *)
Theorem fenced_lines_yield_no_link fs file_path content :
  read_text fs file_path = Returned content ->
  let lines := split_char 10%N content in
  in_code_block scan_start = false
  /\ (forall k,
        in_code_block
          (fold_left scan_step (firstn k (enumerate 1 lines)) scan_start)
        = Nat.odd (count_fences (firstn k lines)))
  /\ (forall l,
        In l (extract_links_from_file fs file_path) ->
        ~ strictly_inside_fence lines (link_line_num l)).
Proof.
  intros Hread; cbv zeta; split; [reflexivity|]; split.
  - intros k; rewrite enumerate_firstn, scan_fence_state; reflexivity.
  - intros l Hl Hin; unfold extract_links_from_file in Hl.
    rewrite Hread in Hl; unfold scan_content in Hl.
    apply scan_links_origin in Hl.
    destruct Hl as [[] | (i & line & _ & Hn & _ & Hx & _)].
    rewrite Hn in Hin; apply inside_fence_odd in Hin.
    simpl in Hx; congruence.
Qed.


(** C5, amended: a target that fails all three rules, that is one that
    starts with none of [http://], [https://], [#] and [./] and has at
    least two [/], is [invalid] with the fixed suggestion; this covers
    absolute and relative paths of three or more segments. *)
Theorem unsupported_link_shape fs source_file line_num link_text link_target :
  not_external link_target ->
  startswith (lit "#") link_target = false ->
  startswith (lit "./") link_target = false ->
  2 <= count_char 47%N link_target ->
  let r := validate_link fs source_file line_num link_text link_target in
  status r = lit "invalid" /\ suggestion r = unsupported_suggestion.
Proof.
  intros [H1 H2] H3 H4 H5; cbv zeta.
  rewrite validate_link_status, validate_link_suggestion.
  unfold link_status.
  rewrite startswith_any_external, H1, H2, H3, (unsupported_rule _ H4 H5).
  split; reflexivity.
Qed.

(** C6, amended: when the read of the document an anchor is looked up in
    raises, be it the source document of an anchor-only link or the target
    file of a relative link with an anchor for which [Path.exists] answers
    True, the exception is caught: the document contributes the headings of
    the lines delivered before the failure, the resolution returns, with
    status [valid] when one of these headings folds to the anchor and
    [missing-anchor] otherwise, so [missing-anchor] when no line was
    delivered; and the loop of main goes on behind this link. *)
Theorem unreadable_target_anchor_lookup
    fs source_file line_num link_text link_target document anchor :
  (link_target = 35%N :: anchor /\ document = source_file)
  \/ (relative_file link_target
      /\ document = blueprint_path fs (file_part_of link_target)
      /\ exists_raises fs document = false
      /\ path_exists fs document = true
      /\ anchor = after_hash link_target
      /\ anchor <> []) ->
  read_text fs document = Raised ->
  let delivered :=
    flat_map headings_of_line (lines_before_failure fs document) in
  let found :=
    exists heading,
      In heading delivered /\ generate_github_anchor heading = anchor in
  let r := validate_link fs source_file line_num link_text link_target in
  extract_headings fs document = delivered
  /\ validate_link_run fs source_file line_num link_text link_target
     = Returned r
  /\ ((found /\ status r = lit "valid")
      \/ (~ found /\ status r = lit "missing-anchor"))
  /\ (lines_before_failure fs document = [] ->
      status r = lit "missing-anchor")
  /\ forall t,
       tally_link_run fs source_file (Returned t)
         {| link_line_num := line_num; link_text_of := link_text;
            link_target_of := link_target |}
       = Returned
           (tally_link fs source_file t
              {| link_line_num := line_num; link_text_of := link_text;
                 link_target_of := link_target |}).
Proof.
  intros Hshape Hread; cbv zeta.
  assert (Hheadings : extract_headings fs document
                      = flat_map headings_of_line
                          (lines_before_failure fs document))
    by (unfold extract_headings; rewrite Hread; apply heading_loop).
  assert (Hreturns : resolution_raises fs link_target = false).
  { destruct Hshape as [[-> _] | (Hrel & -> & Hex & _)];
      [apply anchor_only_never_raises|].
    rewrite (relative_file_raises fs Hrel); exact Hex. }
  assert (Hstatus :
            fst (link_status fs source_file link_target)
            = if anchor_among (extract_headings fs document) anchor
              then lit "valid" else lit "missing-anchor").
  { destruct Hshape as [[-> ->] | (Hrel & -> & _ & Hex & -> & Hne)].
    - unfold link_status; rewrite hash_not_external.
      change (startswith (lit "#") (35%N :: anchor)) with true.
      unfold anchor_exists; cbn [tl].
      destruct (anchor_among _ anchor); reflexivity.
    - rewrite (link_status_relative fs source_file Hrel); cbv zeta.
      rewrite Hex; unfold anchor_exists.
      destruct (after_hash link_target);
        [exfalso; apply Hne; reflexivity|].
      cbn [truthy]; destruct (anchor_among _ _); reflexivity. }
  rewrite validate_link_status, Hstatus.
  split; [exact Hheadings|]; split; [|split; [|split]].
  - rewrite validate_link_run_spec, Hreturns; reflexivity.
  - rewrite <- Hheadings.
    destruct (anchor_among (extract_headings fs document) anchor) eqn:E.
    + left; split; [apply anchor_among_spec; exact E | reflexivity].
    + right; split; [|reflexivity].
      intros H; apply anchor_among_spec in H; congruence.
  - intros Hnone; rewrite Hheadings, Hnone; reflexivity.
  - intros t; rewrite tally_link_run_spec; cbn [link_target_of].
    rewrite Hreturns; reflexivity.
Qed.

(** C7: folding a folded string changes nothing. *)
Theorem anchor_folder_idempotent heading :
  generate_github_anchor (generate_github_anchor heading)
  = generate_github_anchor heading.
Proof.
  destruct (generate_github_anchor_shape heading) as (Hslug & Hadj & Hstrip).
  apply generate_github_anchor_fixed; assumption.
Qed.

(** C8: the heading extractor treats each line on its own, with no fence
    state: the headings are those of the lines, in order; every line whose
    stripped form starts with [#] and has text behind the [#] run yields
    that text; and a [#] line inside a fenced block makes an anchor-only
    link to it [valid]. *)
Theorem headings_ignore_fences fs file_path content :
  read_text fs file_path = Returned content ->
  extract_headings fs file_path
  = flat_map headings_of_line (file_lines content)
  /\ (forall line,
        In line (file_lines content) ->
        startswith (lit "#") (strip line) = true ->
        heading_text line <> [] ->
        In (heading_text line) (extract_headings fs file_path))
  /\ (let fenced := single_file_fs (lit "blueprint/a.md") fenced_heading_doc in
      extract_headings fenced (lit "blueprint/a.md") = [lit "Setup"]
      /\ extract_links_from_file fenced (lit "blueprint/a.md")
         = [{| link_line_num := 4; link_text_of := lit "go";
               link_target_of := lit "#setup" |}]
      /\ status (validate_link fenced (lit "blueprint/a.md") 4 (lit "go")
                   (lit "#setup"))
         = lit "valid").
Proof.
  intros Hread.
  assert (E : extract_headings fs file_path
              = flat_map headings_of_line (file_lines content)).
  { unfold extract_headings; rewrite Hread; apply heading_loop. }
  split; [exact E|]; split.
  - intros line Hin Hstart Htext; rewrite E.
    apply in_flat_map; exists line; split; [exact Hin|].
    unfold headings_of_line; rewrite Hstart.
    destruct (heading_text line); [congruence | left; reflexivity].
  - vm_compute; repeat split; reflexivity.
Qed.

(** C9: the indentation test of the filter never fires, because it looks at
    the stripped line.  The line of four spaces followed by a link is not
    taken for a code snippet, and the scan extracts its link. *)
Theorem indented_link_is_extracted :
  is_likely_code_snippet (lit "    [x](#y)") (lit "x") (lit "#y") = false
  /\ links (scan_content (lit "    [x](#y)"))
     = [{| link_line_num := 1; link_text_of := lit "x";
           link_target_of := lit "#y" |}]
  /\ forall line, startswith (lit "    ") (strip line) = false.
Proof.
  split; [reflexivity|]; split; [reflexivity|].
  intros line; pose proof (strip_by_hd_not is_space line) as H.
  fold (strip line) in H.
  destruct (strip line) as [|c s]; [reflexivity|].
  simpl in H. cbn [lit list_ascii_of_string map startswith].
  destruct (char_eqb (N_of_ascii " ") c) eqn:E; [|reflexivity].
  apply char_eqb_eq in E; subst c; discriminate H.
Qed.

(** C10: the status of a result is [valid], [invalid] or [missing-anchor]
    and never [external-unreachable]; a target that starts with [http://]
    or [https://] is [valid]; and the count of unreachable external links
    of a run is zero. *)
Theorem resolver_status_range fs source_file line_num link_text link_target :
  let st :=
    status (validate_link fs source_file line_num link_text link_target) in
  (st = lit "valid" \/ st = lit "invalid" \/ st = lit "missing-anchor")
  /\ st <> lit "external-unreachable"
  /\ (forall rest,
        status (validate_link fs source_file line_num link_text
                  (lit "http://" ++ rest)) = lit "valid"
        /\ status (validate_link fs source_file line_num link_text
                     (lit "https://" ++ rest)) = lit "valid")
  /\ forall md_files, external_unreachable (tally_files fs md_files) = 0.
Proof.
  cbv zeta; rewrite validate_link_status.
  pose proof (link_status_values fs source_file link_target) as H.
  cbv zeta in H. split; [exact H|]; split; [|split].
  - destruct H as [E|[E|E]]; rewrite E; discriminate.
  - intros rest; split; rewrite validate_link_status; reflexivity.
  - intros md_files; apply (tally_files_unreachable fs md_files tally_start).
Qed.

(** ** The claims at concrete inputs *)

(** C3 at a document with one fenced link and one link behind the fence. *)
Lemma fenced_lines_yield_no_link_witness :
  let fs := single_file_fs (lit "blueprint/a.md") fenced_link_doc in
  read_text fs (lit "blueprint/a.md") = Returned fenced_link_doc
  /\ extract_links_from_file fs (lit "blueprint/a.md")
     = [{| link_line_num := 4; link_text_of := lit "c";
           link_target_of := lit "d" |}]
  /\ strictly_inside_fence (split_char 10%N fenced_link_doc) 2
  /\ forall l,
       In l (extract_links_from_file fs (lit "blueprint/a.md")) ->
       ~ strictly_inside_fence (split_char 10%N fenced_link_doc)
           (link_line_num l).
Proof.
  split; [reflexivity|]; split; [reflexivity|]; split.
  { exists [], (lit "```"), [lit "[a](b)"], (lit "```"), [lit "[c](d)"; []].
    repeat split; simpl; lia. }
  apply (@fenced_lines_yield_no_link
           (single_file_fs (lit "blueprint/a.md") fenced_link_doc)
           (lit "blueprint/a.md") fenced_link_doc).
  reflexivity.
Defined.


(** C5 as it is stated fails at a mailto target: it has no [/], so the
    third rule takes it for a file and the suggestion names that file. *)
Lemma mailto_target_is_relative_file :
  let r := validate_link empty_fs (lit "blueprint/a.md") 1 (lit "mail")
             (lit "mailto:team@example.org") in
  startswith (lit "mailto:") (lit "mailto:team@example.org") = true
  /\ relative_file (lit "mailto:team@example.org")
  /\ suggestion r
     = lit "File 'mailto:team@example.org' does not exist in blueprint/ directory."
  /\ suggestion r <> unsupported_suggestion.
Proof.
  cbv zeta; repeat split; try reflexivity.
  - right; vm_compute; lia.
  - vm_compute; discriminate.
Qed.

(** C5, amended, at an absolute path of three segments. *)
Lemma unsupported_link_shape_witness :
  2 <= count_char 47%N (lit "/docs/guide/a.md")
  /\ status (validate_link empty_fs (lit "blueprint/a.md") 1 (lit "x")
               (lit "/docs/guide/a.md")) = lit "invalid"
  /\ suggestion (validate_link empty_fs (lit "blueprint/a.md") 1 (lit "x")
                   (lit "/docs/guide/a.md")) = unsupported_suggestion.
Proof.
  split; [vm_compute; lia|].
  apply (@unsupported_link_shape empty_fs (lit "blueprint/a.md") 1 (lit "x")
           (lit "/docs/guide/a.md")).
  - split; reflexivity.
  - reflexivity.
  - reflexivity.
  - vm_compute; lia.
Defined.

(** C6 as it is stated fails where the read of the target breaks off after
    a heading line: the heading is kept and the link to it is [valid]. *)
Lemma broken_read_keeps_headings :
  let fs := broken_file_fs (lit "blueprint/B.md") [lit "# Intro" ++ [10%N]] in
  let r := validate_link fs (lit "blueprint/A.md") 3 (lit "Other")
             (lit "./B.md#intro") in
  read_text fs (lit "blueprint/B.md") = Raised
  /\ path_exists fs (lit "blueprint/B.md") = true
  /\ extract_headings fs (lit "blueprint/B.md") = [lit "Intro"]
  /\ status r = lit "valid"
  /\ status r <> lit "missing-anchor".
Proof.
  cbv zeta; repeat split; try reflexivity.
  vm_compute; discriminate.
Qed.

(** C6, amended, at a link into a file that exists and cannot be opened. *)
Lemma unreadable_target_anchor_lookup_witness :
  let fs := locked_file_fs (lit "blueprint/B.md") in
  read_text fs (lit "blueprint/B.md") = Raised
  /\ status (validate_link fs (lit "blueprint/A.md") 3 (lit "Other")
               (lit "./B.md#intro")) = lit "missing-anchor".
Proof.
  split; [reflexivity|].
  refine (proj1 (proj2 (proj2 (proj2
    (@unreadable_target_anchor_lookup
       (locked_file_fs (lit "blueprint/B.md")) (lit "blueprint/A.md") 3
       (lit "Other") (lit "./B.md#intro") (lit "blueprint/B.md")
       (lit "intro") _ eq_refl)))) eq_refl).
  right; repeat split; try reflexivity.
  - left; reflexivity.
  - discriminate.
Defined.

(** C8 at a document whose only heading stands inside a fence. *)
Lemma headings_ignore_fences_witness :
  let fs := single_file_fs (lit "blueprint/a.md") fenced_heading_doc in
  read_text fs (lit "blueprint/a.md") = Returned fenced_heading_doc
  /\ extract_headings fs (lit "blueprint/a.md")
     = flat_map headings_of_line (file_lines fenced_heading_doc).
Proof.
  split; [reflexivity|].
  exact (proj1
    (@headings_ignore_fences
       (single_file_fs (lit "blueprint/a.md") fenced_heading_doc)
       (lit "blueprint/a.md") fenced_heading_doc eq_refl)).
Defined.

(** ** The scenarios of the description *)

Example heading_then_anchor_link :
  status (validate_link
            (single_file_fs (lit "blueprint/a.md")
               (text_of_lines ["## My Heading"; "[link](#my-heading)"]%string))
            (lit "blueprint/a.md") 2 (lit "link") (lit "#my-heading"))
  = lit "valid".
Proof. reflexivity. Qed.

Example missing_image_is_valid :
  status (validate_link empty_fs (lit "blueprint/a.md") 1 (lit "x")
            (lit "./diagram.png")) = lit "valid".
Proof. reflexivity. Qed.

Example capture_list_is_filtered :
  links (scan_content (lit "see [this](const Foo&) here")) = [].
Proof. reflexivity. Qed.

Example fence_marker_line_is_filtered :
  is_likely_code_snippet (lit "use ```[x](y)``` here") (lit "x") (lit "y")
  = true.
Proof. reflexivity. Qed.

Example end_to_end_scenario :
  map (fun r => (line r, link r, status r))
    (all_link_results
       (tally_files scenario_fs [lit "blueprint/A.md"; lit "blueprint/B.md"]))
  = [(2, lit "#intro", lit "valid");
     (3, lit "./B.md#missing", lit "missing-anchor")].
Proof. reflexivity. Qed.

(** * Further properties of the link checker *)

(** ** Anchors *)

Lemma no_adjacent_no_double s :
  no_adjacent hy s -> contains (lit "--") s = false.
Proof.
  change (lit "--") with [45%N; 45%N].
  induction s as [|c s IH]; [reflexivity|].
  intros [Hc Hs]; cbn [contains startswith].
  rewrite (IH Hs), orb_false_r.
  destruct (char_eqb 45%N c) eqn:E; [|reflexivity].
  apply char_eqb_eq in E; subst c.
  specialize (Hc eq_refl). destruct s as [|d s]; [reflexivity|].
  simpl in Hc; unfold hy in Hc.
  cbn [startswith andb].
  rewrite (N.eqb_sym 45 d : char_eqb 45%N d = char_eqb d 45%N), Hc.
  reflexivity.
Qed.

Lemma hd_not_hy_startswith s : hd_not hy s -> startswith (lit "-") s = false.
Proof.
  change (lit "-") with [45%N]; destruct s as [|c s]; [reflexivity|].
  cbn [hd_not startswith]; unfold hy; intros H.
  rewrite (N.eqb_sym 45 c : char_eqb 45%N c = char_eqb c 45%N), H.
  reflexivity.
Qed.

Lemma rstrip_fixed_last p s : rstrip_by p s = s -> hd_not p (rev s).
Proof.
  intros H; rewrite rstrip_by_rev in H.
  assert (E : lstrip_by p (rev s) = rev s)
    by (rewrite <- (rev_involutive (lstrip_by p (rev s))), H; reflexivity).
  rewrite <- E; apply lstrip_by_hd_not.
Qed.

(** X1: an anchor produced by the folding consists of lowercase letters,
    digits and hyphens, has no two hyphens in a row, and neither starts nor
    ends with a hyphen. *)
Theorem anchor_shape heading :
  let a := generate_github_anchor heading in
  Forall (fun c => slug_char c = true) a
  /\ contains (lit "--") a = false
  /\ startswith (lit "-") a = false
  /\ endswith (lit "-") a = false.
Proof.
  destruct (generate_github_anchor_shape heading) as (Hslug & Hadj & Hstrip).
  assert (Hhd : hd_not hy (generate_github_anchor heading))
    by (rewrite <- Hstrip; apply strip_by_hd_not).
  assert (Hr : rstrip_by hy (generate_github_anchor heading)
               = generate_github_anchor heading).
  { unfold strip_by in Hstrip.
    rewrite (lstrip_by_fixed _ _ Hhd) in Hstrip; exact Hstrip. }
  cbv zeta; split; [exact Hslug|]; split; [|split].
  - apply no_adjacent_no_double; exact Hadj.
  - apply hd_not_hy_startswith; exact Hhd.
  - unfold endswith; change (rev (lit "-")) with (lit "-").
    apply hd_not_hy_startswith, rstrip_fixed_last; exact Hr.
Qed.

Lemma lower_char_idem c : lower (lower_char c) = lower_char c.
Proof.
  unfold lower, lower_char.
  destruct ((65 <=? c)%N && (c <=? 90)%N) eqn:E1.
  - apply andb_true_iff in E1; destruct E1 as [L U].
    apply N.leb_le in L; apply N.leb_le in U.
    cbn [flat_map]; unfold lower_char.
    replace ((65 <=? c + 32)%N && (c + 32 <=? 90)%N) with false
      by (symmetry; apply andb_false_iff; right; apply N.leb_gt; lia).
    replace (c + 32 =? 304)%N with false by (symmetry; apply N.eqb_neq; lia).
    replace (c + 32 =? 8490)%N with false by (symmetry; apply N.eqb_neq; lia).
    reflexivity.
  - destruct (c =? 304)%N eqn:E2; [reflexivity|].
    destruct (c =? 8490)%N eqn:E3; [reflexivity|].
    cbn [flat_map]; unfold lower_char; rewrite E1, E2, E3; reflexivity.
Qed.

(** X2: the case of a heading does not matter: the heading and its
    lowercase form fold to the same anchor. *)
Theorem anchor_ignores_case heading :
  generate_github_anchor (lower heading) = generate_github_anchor heading.
Proof.
  unfold generate_github_anchor.
  assert (E : lower (lower heading) = lower heading).
  { unfold lower at 2 3; induction heading as [|c s IH]; [reflexivity|].
    cbn [flat_map]; unfold lower; rewrite flat_map_app.
    fold (lower (lower_char c)); rewrite lower_char_idem.
    unfold lower in IH; rewrite IH; reflexivity. }
  rewrite E; reflexivity.
Qed.

Lemma anchor_among_shape headings anchor :
  anchor_among headings anchor = true ->
  Forall (fun c => slug_char c = true) anchor.
Proof.
  intros H; apply anchor_among_spec in H; destruct H as (h & _ & <-).
  apply generate_github_anchor_shape.
Qed.

(** X3: an anchor with a character that is no lowercase letter, digit or
    hyphen is found in no file, so an anchor-only link to it is
    [missing-anchor] whatever the document holds. *)
Theorem unfolded_anchor_never_found fs source_file line_num link_text anchor c :
  In c anchor -> slug_char c = false ->
  anchor_exists fs source_file anchor = false
  /\ status (validate_link fs source_file line_num link_text
               (35%N :: anchor)) = lit "missing-anchor".
Proof.
  intros Hin Hc.
  assert (E : anchor_exists fs source_file anchor = false).
  { unfold anchor_exists.
    destruct (anchor_among (extract_headings fs source_file) anchor) eqn:E;
      [|reflexivity].
    apply anchor_among_shape in E; rewrite Forall_forall in E.
    rewrite (E c Hin) in Hc; discriminate. }
  split; [exact E|].
  rewrite validate_link_status; unfold link_status.
  rewrite hash_not_external.
  change (startswith (lit "#") (35%N :: anchor)) with true.
  cbn [tl]; rewrite E; reflexivity.
Qed.

Lemma unfolded_anchor_never_found_witness :
  slug_char 77%N = false
  /\ status (validate_link
               (single_file_fs (lit "blueprint/a.md")
                  (text_of_lines ["## My Heading"]%string))
               (lit "blueprint/a.md") 2 (lit "link") (lit "#My-Heading"))
     = lit "missing-anchor".
Proof.
  split; [reflexivity|].
  refine (proj2 (@unfolded_anchor_never_found
    (single_file_fs (lit "blueprint/a.md")
       (text_of_lines ["## My Heading"]%string))
    (lit "blueprint/a.md") 2 (lit "link") (lit "My-Heading") 77%N _ eq_refl)).
  left; reflexivity.
Defined.

(** ** Headings *)

Lemma extract_headings_lines fs file_path heading :
  In heading (extract_headings fs file_path) ->
  exists line,
    startswith (lit "#") (strip line) = true
    /\ heading = heading_text line
    /\ heading <> [].
Proof.
  assert (Hloop : forall lines,
            In heading (fold_left heading_step lines []) ->
            exists line,
              startswith (lit "#") (strip line) = true
              /\ heading = heading_text line
              /\ heading <> []).
  { intros lines; rewrite heading_loop; cbn [app]; intros H.
    apply in_flat_map in H; destruct H as (line & _ & H).
    unfold headings_of_line in H.
    destruct (startswith (lit "#") (strip line)) eqn:Es; [|destruct H].
    destruct (heading_text line) as [|c t] eqn:Et; [destruct H|].
    destruct H as [<- | []].
    exists line; repeat split; auto; congruence. }
  unfold extract_headings; destruct (read_text fs file_path); apply Hloop.
Qed.

(** X4: every extracted heading is non-empty and has no whitespace at
    either end. *)
Theorem headings_are_trimmed fs file_path heading :
  In heading (extract_headings fs file_path) ->
  heading <> [] /\ strip heading = heading.
Proof.
  intros H; apply extract_headings_lines in H.
  destruct H as (line & _ & -> & Hne).
  split; [exact Hne|].
  unfold heading_text, strip, strip_by, rstrip.
  rewrite lstrip_by_fixed
    by (apply rstrip_by_hd_not, lstrip_by_hd_not).
  apply rstrip_by_idem.
Qed.

Lemma headings_are_trimmed_witness :
  let fs := single_file_fs (lit "blueprint/a.md")
              (text_of_lines ["  ##   Spaced Out   "]%string) in
  extract_headings fs (lit "blueprint/a.md") = [lit "Spaced Out"]
  /\ strip (lit "Spaced Out") = lit "Spaced Out".
Proof.
  split; [reflexivity|].
  refine (proj2 (@headings_are_trimmed
    (single_file_fs (lit "blueprint/a.md")
       (text_of_lines ["  ##   Spaced Out   "]%string))
    (lit "blueprint/a.md") (lit "Spaced Out") _)).
  left; reflexivity.
Defined.

(** X5: a link to the folded form of a heading of the same document is
    [valid]: for every line of a readable document that yields a heading,
    the anchor-only link to the anchor of that heading resolves. *)
Theorem heading_anchor_resolves fs source_file content line line_num link_text :
  read_text fs source_file = Returned content ->
  In line (file_lines content) ->
  startswith (lit "#") (strip line) = true ->
  heading_text line <> [] ->
  status (validate_link fs source_file line_num link_text
            (35%N :: generate_github_anchor (heading_text line)))
  = lit "valid".
Proof.
  intros Hread Hin Hstart Htext.
  rewrite validate_link_status; unfold link_status.
  rewrite hash_not_external.
  change (startswith (lit "#") (35%N :: ?a)) with true.
  cbn [tl]; unfold anchor_exists.
  replace (anchor_among _ _) with true; [reflexivity|].
  symmetry; apply anchor_among_spec.
  exists (heading_text line); split; [|reflexivity].
  unfold extract_headings; rewrite Hread, heading_loop; cbn [app].
  apply in_flat_map; exists line; split; [exact Hin|].
  unfold headings_of_line; rewrite Hstart.
  destruct (heading_text line); [congruence | left; reflexivity].
Qed.

Lemma heading_anchor_resolves_witness :
  let doc := text_of_lines ["## My Heading"; "[link](#my-heading)"]%string in
  let fs := single_file_fs (lit "blueprint/a.md") doc in
  generate_github_anchor (heading_text (lit "## My Heading" ++ [10%N]))
  = lit "my-heading"
  /\ status (validate_link fs (lit "blueprint/a.md") 2 (lit "link")
               (35%N :: generate_github_anchor
                          (heading_text (lit "## My Heading" ++ [10%N]))))
     = lit "valid".
Proof.
  split; [reflexivity|].
  apply (@heading_anchor_resolves
    (single_file_fs (lit "blueprint/a.md")
       (text_of_lines ["## My Heading"; "[link](#my-heading)"]%string))
    (lit "blueprint/a.md")
    (text_of_lines ["## My Heading"; "[link](#my-heading)"]%string)
    (lit "## My Heading" ++ [10%N]) 2 (lit "link")).
  - reflexivity.
  - left; reflexivity.
  - reflexivity.
  - discriminate.
Defined.

(** ** The resolver *)

Lemma valid_not_invalid : lit "valid" <> lit "invalid".
Proof. discriminate. Qed.

(** X6: a result carries a suggestion exactly when its status is not
    [valid]. *)
Theorem suggestion_iff_not_valid fs source_file line_num link_text link_target :
  let r := validate_link fs source_file line_num link_text link_target in
  status r = lit "valid" <-> suggestion r = lit "".
Proof.
  cbv zeta; rewrite validate_link_status, validate_link_suggestion.
  unfold link_status.
  repeat match goal with
    | |- context [let (_, _) := ?p in _] => destruct p
    | |- context [if ?b then _ else _] => destruct b
    end; cbn [fst snd];
    first [ split; reflexivity | split; intros H; discriminate H ].
Qed.



(** ** The link pattern *)

Lemma until_char_split stop s a r :
  Re.until_char stop s = Some (a, r) ->
  s = a ++ stop :: r /\ ~ In stop a.
Proof.
  revert a r; induction s as [|c s IH]; intros a r; simpl; [discriminate|].
  destruct (char_eqb c stop) eqn:E.
  - apply char_eqb_eq in E; subst c.
    intros H; injection H as <- <-; split; [reflexivity | intros []].
  - destruct (Re.until_char stop s) as [[a' r']|]; [|discriminate].
    intros H; injection H as <- <-.
    destruct (IH a' r' eq_refl) as [-> Hn]; split; [reflexivity|].
    intros [->|Hin]; [|exact (Hn Hin)].
    rewrite char_eqb_refl in E; discriminate.
Qed.

Lemma until_char_found stop a r :
  ~ In stop a -> Re.until_char stop (a ++ stop :: r) = Some (a, r).
Proof.
  induction a as [|c a IH]; intros Hn; simpl.
  - rewrite char_eqb_refl; reflexivity.
  - destruct (char_eqb c stop) eqn:E.
    + apply char_eqb_eq in E; subst c; exfalso; apply Hn; left; reflexivity.
    + rewrite IH; [reflexivity | intros H; apply Hn; right; exact H].
Qed.

Lemma render_link_app link_text link_target rest :
  render_link link_text link_target ++ rest
  = 91%N :: link_text ++ 93%N :: 40%N :: link_target ++ 41%N :: rest.
Proof.
  unfold render_link; cbn [app]; f_equal.
  rewrite <- app_assoc; f_equal; cbn [app]; f_equal; f_equal.
  rewrite <- app_assoc; reflexivity.
Qed.

Lemma render_link_length link_text link_target :
  List.length (render_link link_text link_target)
  = 4 + List.length link_text + List.length link_target.
Proof.
  unfold render_link; cbn [app List.length].
  rewrite !length_app; cbn [List.length]; rewrite length_app;
    cbn [List.length]; lia.
Qed.

Lemma match_link_split s link_text link_target n :
  Re.match_link s = Some (link_text, link_target, n) ->
  exists rest,
    s = render_link link_text link_target ++ rest
    /\ n = List.length (render_link link_text link_target)
    /\ ~ In 93%N link_text /\ ~ In 41%N link_target.
Proof.
  unfold Re.match_link; destruct s as [|c r]; [discriminate|].
  destruct (char_eqb c 91%N) eqn:Ec; [|discriminate].
  apply char_eqb_eq in Ec; subst c.
  destruct (Re.until_char 93%N r) as [[t [|c2 r2]]|] eqn:Et; try discriminate.
  destruct (char_eqb c2 40%N) eqn:Ec2; [|discriminate].
  apply char_eqb_eq in Ec2; subst c2.
  destruct (Re.until_char 41%N r2) as [[g r3]|] eqn:Eg; [|discriminate].
  intros H; injection H as <- <- <-.
  apply until_char_split in Et; destruct Et as [-> Ht].
  apply until_char_split in Eg; destruct Eg as [-> Hg].
  exists r3; repeat split; auto.
  - symmetry; apply render_link_app.
  - symmetry; apply render_link_length.
Qed.

Lemma match_link_found link_text link_target rest :
  ~ In 93%N link_text -> ~ In 41%N link_target ->
  Re.match_link (render_link link_text link_target ++ rest)
  = Some (link_text, link_target,
          4 + List.length link_text + List.length link_target).
Proof.
  intros Ht Hg; rewrite render_link_app; unfold Re.match_link.
  rewrite char_eqb_refl, (@until_char_found _ _ _ Ht), char_eqb_refl.
  rewrite (@until_char_found _ _ _ Hg); reflexivity.
Qed.

Lemma findall_skip a : forall k s,
  Re.findall_link_from (List.length a + k) (a ++ s)
  = Re.findall_link_from k s.
Proof. induction a as [|c a IH]; intros k s; [reflexivity | apply IH]. Qed.

Lemma findall_no_bracket pre s :
  ~ In 91%N pre ->
  Re.findall_link_from 0 (pre ++ s) = Re.findall_link_from 0 s.
Proof.
  induction pre as [|c pre IH]; intros Hn; [reflexivity|].
  cbn [app Re.findall_link_from Re.match_link].
  destruct (char_eqb c 91%N) eqn:E.
  - apply char_eqb_eq in E; subst c; exfalso; apply Hn; left; reflexivity.
  - apply IH; intros H; apply Hn; right; exact H.
Qed.

(** X8: the matches of the pattern on a line are occurrences of links in
    it: for each match, the line has the text in square brackets directly
    followed by the target in parentheses, the text has no closing square
    bracket and the target no closing parenthesis. *)
Theorem findall_matches_occur s link_text link_target :
  In (link_text, link_target) (Re.findall_link s) ->
  (exists before after,
     s = before ++ render_link link_text link_target ++ after)
  /\ ~ In 93%N link_text /\ ~ In 41%N link_target.
Proof.
  unfold Re.findall_link; generalize 0 as skip.
  induction s as [|c s IH]; intros skip H; [destruct H|].
  cbn [Re.findall_link_from] in H.
  assert (Step : forall k,
            In (link_text, link_target) (Re.findall_link_from k s) ->
            (exists before after,
               c :: s = before ++ render_link link_text link_target ++ after)
            /\ ~ In 93%N link_text /\ ~ In 41%N link_target).
  { intros k Hk; destruct (IH k Hk) as ((b & a & E) & Hn).
    split; [|exact Hn]. exists (c :: b), a; rewrite E; reflexivity. }
  destruct skip as [|k]; [|exact (Step k H)].
  destruct (Re.match_link (c :: s)) as [[[t g] n]|] eqn:Em;
    [|exact (Step 0 H)].
  destruct H as [H|H]; [|exact (Step _ H)].
  injection H as -> ->.
  apply match_link_split in Em; destruct Em as (rest & E & _ & Ht & Hg).
  split; [|auto]. exists [], rest; exact E.
Qed.

Lemma findall_matches_occur_witness :
  In (lit "d", lit "e#f") (Re.findall_link (lit "a [x](y) [a[b]c [d](e#f)(g)"))
  /\ ~ In 93%N (lit "d").
Proof.
  assert (Hin : In (lit "d", lit "e#f")
                  (Re.findall_link (lit "a [x](y) [a[b]c [d](e#f)(g)")))
    by (right; left; reflexivity).
  split; [exact Hin|].
  exact (proj1 (proj2 (@findall_matches_occur
    (lit "a [x](y) [a[b]c [d](e#f)(g)") (lit "d") (lit "e#f") Hin))).
Defined.

(** The search on a line that is one written link. *)
Lemma findall_single_link (link_text link_target : str) :
  ~ In 93%N link_text -> ~ In 41%N link_target ->
  Re.findall_link (render_link link_text link_target)
  = [(link_text, link_target)].
Proof.
  intros Ht Hg; unfold Re.findall_link.
  assert (Em : Re.match_link (render_link link_text link_target)
               = Some (link_text, link_target,
                       List.length (render_link link_text link_target))).
  { rewrite render_link_length.
    pose proof (@match_link_found _ _ [] Ht Hg) as Em.
    rewrite app_nil_r in Em; exact Em. }
  destruct (render_link link_text link_target) as [|c w];
    [discriminate Em|].
  cbn [Re.findall_link_from]; rewrite Em; f_equal.
  cbn [List.length Nat.pred].
  pose proof (findall_skip w 0 []) as F.
  rewrite app_nil_r, Nat.add_0_r in F; exact F.
Qed.

(** X9: a written link is found again, and the search goes on behind it:
    when the text has no closing square bracket, the target no closing
    parenthesis and the text before the link no opening square bracket, the
    first match is this link and the other matches are those of the rest of
    the line. *)
Theorem findall_written_link before link_text link_target after :
  ~ In 91%N before -> ~ In 93%N link_text -> ~ In 41%N link_target ->
  Re.findall_link (before ++ render_link link_text link_target ++ after)
  = (link_text, link_target) :: Re.findall_link after.
Proof.
  intros Hb Ht Hg; unfold Re.findall_link.
  rewrite (@findall_no_bracket _ _ Hb).
  remember (render_link link_text link_target) as w eqn:Ew.
  assert (Em := @match_link_found _ _ after Ht Hg); rewrite <- Ew in Em.
  assert (Hlen : List.length w
                 = 4 + List.length link_text + List.length link_target)
    by (rewrite Ew; apply render_link_length).
  destruct w as [|c w]; [discriminate Hlen|].
  cbn [app Re.findall_link_from]. cbn [app] in Em; rewrite Em.
  f_equal.
  replace (Nat.pred (4 + List.length link_text + List.length link_target))
    with (List.length w + 0) by (cbn [List.length] in Hlen; lia).
  apply findall_skip.
Qed.

Lemma findall_written_link_witness :
  Re.findall_link
    (lit "see " ++ render_link (lit "the guide") (lit "./guide.md")
     ++ lit " and [x](y)")
  = [(lit "the guide", lit "./guide.md"); (lit "x", lit "y")].
Proof.
  refine (eq_trans
    (@findall_written_link (lit "see ") (lit "the guide")
       (lit "./guide.md") (lit " and [x](y)") _ _ _) _).
  - vm_compute; intuition discriminate.
  - vm_compute; intuition discriminate.
  - vm_compute; intuition discriminate.
  - reflexivity.
Defined.

(** ** The scan of a document *)

Lemma match_loop_app n line ms : forall acc,
  exists new,
    fold_left (match_step n line) ms acc = acc ++ new
    /\ Forall (fun l => link_line_num l = n) new.
Proof.
  induction ms as [|[t g] ms IH]; intros acc; cbn [fold_left].
  - exists []; split; [symmetry; apply app_nil_r | constructor].
  - destruct (IH (match_step n line acc (t, g))) as (new & E & Hn).
    unfold match_step in E |- *.
    destruct (truthy (strip t) && truthy (strip g)); [|eauto].
    destruct (is_likely_code_snippet line t g); [eauto|].
    eexists; split; [rewrite E, <- app_assoc; reflexivity|].
    constructor; [reflexivity | exact Hn].
Qed.

Lemma sorted_same_line n ls :
  Forall (fun l => link_line_num l = n) ls -> StronglySorted by_line ls.
Proof.
  induction 1 as [|l ls Hl Hls IH]; constructor; [exact IH|].
  eapply Forall_impl; [|exact Hls].
  intros a Ha; unfold by_line; cbv beta in Ha, Hl; lia.
Qed.

Lemma sorted_app (a b : list Link) :
  StronglySorted by_line a -> StronglySorted by_line b ->
  (forall x y, In x a -> In y b -> by_line x y) ->
  StronglySorted by_line (a ++ b).
Proof.
  induction 1 as [|x a Ha IH Hx]; intros Hb Hab; [exact Hb|].
  cbn [app]; constructor.
  - apply IH; [exact Hb | intros u v Hu; apply Hab; right; exact Hu].
  - apply Forall_app; split; [exact Hx|].
    apply Forall_forall; intros y Hy; apply Hab; [left; reflexivity | exact Hy].
Qed.

Lemma scan_shape lines : forall n st,
  exists new,
    links (fold_left scan_step (enumerate n lines) st) = links st ++ new
    /\ Forall (fun l => n <= link_line_num l
                        /\ link_line_num l < n + List.length lines) new
    /\ StronglySorted by_line new.
Proof.
  induction lines as [|line lines IH]; intros n st.
  - exists []; repeat split; [symmetry; apply app_nil_r | constructor
                              | constructor].
  - rewrite enumerate_cons; cbn [fold_left].
    destruct (IH (S n) (scan_step st (n, line))) as (new1 & E1 & R1 & S1).
    assert (H0 : exists new0,
               links (scan_step st (n, line)) = links st ++ new0
               /\ Forall (fun l => link_line_num l = n) new0).
    { unfold scan_step.
      destruct (startswith (lit "```") (strip line));
        [exists []; split; [symmetry; apply app_nil_r | constructor]|].
      destruct (in_code_block st);
        [exists []; split; [symmetry; apply app_nil_r | constructor]|].
      apply match_loop_app. }
    destruct H0 as (new0 & E0 & R0).
    exists (new0 ++ new1); split; [|split].
    + rewrite E1, E0, <- app_assoc; reflexivity.
    + apply Forall_app; split.
      * eapply Forall_impl; [|exact R0].
        intros l Hl; cbv beta in Hl; cbn [List.length]; lia.
      * eapply Forall_impl; [|exact R1].
        intros l Hl; cbv beta in Hl; cbn [List.length]; lia.
    + apply sorted_app; [eapply sorted_same_line; exact R0 | exact S1|].
      intros x y Hx Hy; rewrite Forall_forall in R0, R1.
      specialize (R0 x Hx); specialize (R1 y Hy); cbv beta in R0, R1.
      unfold by_line; lia.
Qed.

(** X10: the links of a document come in the order of their lines, and
    each carries the number of one of its lines, counted from 1. *)
Theorem links_in_line_order content :
  let ls := links (scan_content content) in
  StronglySorted by_line ls
  /\ Forall (fun l => 1 <= link_line_num l
                      /\ link_line_num l
                         <= List.length (split_char 10%N content)) ls.
Proof.
  cbv zeta; unfold scan_content.
  destruct (scan_shape (split_char 10%N content) 1 scan_start)
    as (new & E & R & S).
  rewrite E; cbn [links scan_start app]; split; [exact S|].
  eapply Forall_impl; [|exact R]. intros l Hl; cbv beta in Hl; lia.
Qed.

Lemma match_loop_source n line ms : forall acc l,
  In l (fold_left (match_step n line) ms acc) ->
  In l acc
  \/ (In (link_text_of l, link_target_of l) ms
      /\ strip (link_text_of l) <> []
      /\ strip (link_target_of l) <> []).
Proof.
  induction ms as [|[t g] ms IH]; intros acc l; cbn [fold_left]; [auto|].
  intros H; apply IH in H; destruct H as [H | (H1 & H2)];
    [|right; split; [right; exact H1 | exact H2]].
  unfold match_step in H.
  destruct (truthy (strip t)) eqn:Et; [|auto].
  destruct (truthy (strip g)) eqn:Eg; [|auto].
  cbn [andb] in H.
  destruct (is_likely_code_snippet line t g); [auto|].
  apply in_app_or in H; destruct H as [H | [<- | []]]; [auto|].
  right; cbn [link_text_of link_target_of]; split; [left; reflexivity|].
  split; [destruct (strip t) | destruct (strip g)]; discriminate.
Qed.

Lemma scan_links_source lines : forall n st l,
  In l (links (fold_left scan_step (enumerate n lines) st)) ->
  In l (links st)
  \/ exists i line,
       nth_error lines i = Some line
       /\ link_line_num l = n + i
       /\ In (link_text_of l, link_target_of l) (Re.findall_link line)
       /\ strip (link_text_of l) <> []
       /\ strip (link_target_of l) <> [].
Proof.
  induction lines as [|line lines IH]; intros n st l; [simpl; auto|].
  rewrite enumerate_cons; cbn [fold_left]; intros H.
  apply IH in H; destruct H as [H | (i & line' & Hi & Hn & Hrest)].
  - unfold scan_step in H.
    destruct (startswith (lit "```") (strip line)); [left; exact H|].
    destruct (in_code_block st); [left; exact H|].
    cbn [links] in H.
    pose proof (match_loop_origin _ _ _ _ _ H) as Ho.
    apply match_loop_source in H.
    destruct H as [H | Hs]; [left; exact H|].
    destruct Ho as [Ho | [Hn _]]; [left; exact Ho|].
    right; exists 0, line; rewrite Nat.add_0_r; auto.
  - right; exists (S i), line'; split; [exact Hi|].
    split; [lia | exact Hrest].
Qed.

Lemma likely_code_fence_marker line link_text link_target :
  is_likely_code_snippet line link_text link_target = false ->
  contains (lit "```") line = false
  /\ contains (lit "std::") link_target = false.
Proof.
  unfold is_likely_code_snippet.
  destruct (contains (lit "```") line); [discriminate|].
  destruct (contains (lit "std::") link_target);
    [|split; reflexivity].
  rewrite !orb_true_r; cbn [orb].
  destruct (startswith (lit "    ") (strip line)); [discriminate|].
  destruct (str_in link_text [lit "this"; lit "&"; lit "="]
            && (contains (lit "const") link_target
                || contains (lit "&") link_target)); discriminate.
Qed.

(** X11: every link of a document is a match of the pattern on the line
    whose number it carries; its text and its target are not blank; the
    line is no fence line, follows an even number of fence lines and holds
    no fence marker; and the target has no [std::]. *)
Theorem links_come_from_lines content l :
  In l (links (scan_content content)) ->
  exists line,
    nth_error (split_char 10%N content) (link_line_num l - 1) = Some line
    /\ In (link_text_of l, link_target_of l) (Re.findall_link line)
    /\ strip (link_text_of l) <> []
    /\ strip (link_target_of l) <> []
    /\ is_fence line = false
    /\ Nat.even (count_fences
                   (firstn (link_line_num l - 1) (split_char 10%N content)))
       = true
    /\ contains (lit "```") line = false
    /\ contains (lit "std::") (link_target_of l) = false.
Proof.
  unfold scan_content; intros H.
  pose proof (scan_links_origin _ _ _ _ H) as Ho.
  apply scan_links_source in H.
  destruct H as [[] | (i & line & Hi & Hn & Hm & Ht & Hg)].
  destruct Ho as [[] | (j & line' & Hj & Hn' & Hf & Hx & Hc)].
  assert (j = i) by lia; subst j.
  assert (line' = line) by congruence; subst line'.
  replace (link_line_num l - 1) with i by lia.
  destruct (likely_code_fence_marker _ _ _ Hc) as [Hm1 Hm2].
  exists line; repeat split; auto.
  cbn [in_code_block scan_start xorb] in Hx.
  rewrite <- Nat.negb_odd, Hx; reflexivity.
Qed.

Lemma links_come_from_lines_witness :
  exists line,
    nth_error (split_char 10%N fenced_link_doc) 3 = Some line
    /\ In (lit "c", lit "d") (Re.findall_link line).
Proof.
  destruct (@links_come_from_lines fenced_link_doc
              {| link_line_num := 4; link_text_of := lit "c";
                 link_target_of := lit "d" |})
    as (line & H1 & H2 & _).
  - left; reflexivity.
  - exists line; split; [exact H1 | exact H2].
Defined.

Lemma split_char_single sep s :
  ~ In sep s -> split_char sep s = [s].
Proof.
  induction s as [|c s IH]; intros Hn; [reflexivity|].
  cbn [split_char].
  destruct (char_eqb c sep) eqn:E.
  - apply char_eqb_eq in E; subst c; exfalso; apply Hn; left; reflexivity.
  - rewrite IH; [reflexivity | intros H; apply Hn; right; exact H].
Qed.

Lemma bracket_line_no_fence (s : str) : is_fence (91%N :: s) = false.
Proof.
  unfold is_fence, strip, strip_by; cbn [lstrip_by].
  change (is_space 91%N) with false; cbn iota; cbn [rstrip_by].
  destruct (rstrip_by is_space s); reflexivity.
Qed.

Lemma written_link_no_fence link_text link_target :
  is_fence (render_link link_text link_target) = false.
Proof. apply bracket_line_no_fence. Qed.

(** X12: a document that consists of one written link yields exactly this
    link, on line 1, when the text and the target are not blank and have no
    newline, the text has no closing square bracket, the target has no
    closing parenthesis and the filter does not take the line for code. *)
Theorem written_link_is_extracted link_text link_target :
  ~ In 10%N link_text -> ~ In 10%N link_target ->
  ~ In 93%N link_text -> ~ In 41%N link_target ->
  strip link_text <> [] -> strip link_target <> [] ->
  is_likely_code_snippet (render_link link_text link_target) link_text
    link_target = false ->
  links (scan_content (render_link link_text link_target))
  = [{| link_line_num := 1; link_text_of := link_text;
        link_target_of := link_target |}].
Proof.
  intros Nt Ng Ht Hg St Sg Hc; unfold scan_content.
  rewrite split_char_single.
  - cbn [enumerate List.length seq combine fold_left].
    unfold scan_step. fold (is_fence (render_link link_text link_target)).
    rewrite written_link_no_fence; cbn [in_code_block scan_start links].
    rewrite (@findall_single_link _ _ Ht Hg).
    cbn [fold_left match_step].
    rewrite Hc.
    destruct (strip link_text); [congruence|].
    destruct (strip link_target); [congruence|].
    reflexivity.
  - unfold render_link; cbn [app]; intros [H|H]; [discriminate H|].
    apply in_app_or in H; destruct H as [H|[H|[H|H]]];
      [exact (Nt H) | discriminate H | discriminate H|].
    apply in_app_or in H; destruct H as [H|[H|[]]];
      [exact (Ng H) | discriminate H].
Qed.

Lemma written_link_is_extracted_witness :
  links (scan_content (render_link (lit "See Intro") (lit "#intro")))
  = [{| link_line_num := 1; link_text_of := lit "See Intro";
        link_target_of := lit "#intro" |}].
Proof.
  apply (@written_link_is_extracted (lit "See Intro") (lit "#intro"));
    first [ reflexivity | vm_compute; intuition discriminate ].
Defined.

(** ** The counters of main *)

Lemma count_status_app st a b :
  count_status st (a ++ b) = count_status st a + count_status st b.
Proof. unfold count_status; rewrite filter_app, length_app; reflexivity. Qed.

Lemma tally_link_counts fs md_file t l :
  total_links t = List.length (all_link_results t)
  /\ valid_links t = count_status (lit "valid") (all_link_results t)
  /\ invalid_links t = count_status (lit "invalid") (all_link_results t)
  /\ missing_anchors t
     = count_status (lit "missing-anchor") (all_link_results t) ->
  let t' := tally_link fs md_file t l in
  total_links t' = List.length (all_link_results t')
  /\ valid_links t' = count_status (lit "valid") (all_link_results t')
  /\ invalid_links t' = count_status (lit "invalid") (all_link_results t')
  /\ missing_anchors t'
     = count_status (lit "missing-anchor") (all_link_results t').
Proof.
  intros (H1 & H2 & H3 & H4); cbv zeta; unfold tally_link.
  cbn [total_links valid_links invalid_links missing_anchors
       all_link_results].
  rewrite !count_status_app, length_app, <- H1, <- H2, <- H3, <- H4.
  unfold count_status; cbn [filter List.length].
  rewrite validate_link_status.
  destruct (link_status_values fs md_file (link_target_of l)) as [E|[E|E]];
    rewrite E; cbn; repeat split; lia.
Qed.

Lemma tally_file_counts fs md_file t :
  total_links t = List.length (all_link_results t)
  /\ valid_links t = count_status (lit "valid") (all_link_results t)
  /\ invalid_links t = count_status (lit "invalid") (all_link_results t)
  /\ missing_anchors t
     = count_status (lit "missing-anchor") (all_link_results t) ->
  let t' := tally_file fs t md_file in
  total_links t' = List.length (all_link_results t')
  /\ valid_links t' = count_status (lit "valid") (all_link_results t')
  /\ invalid_links t' = count_status (lit "invalid") (all_link_results t')
  /\ missing_anchors t'
     = count_status (lit "missing-anchor") (all_link_results t').
Proof.
  cbv zeta; unfold tally_file.
  generalize (extract_links_from_file fs md_file); intros ls; revert t.
  induction ls as [|l ls IH]; intros t H; [exact H|].
  cbn [fold_left]; apply IH, tally_link_counts, H.
Qed.

Lemma results_status_values fs md_files r :
  In r (all_link_results (tally_files fs md_files)) ->
  status r = lit "valid" \/ status r = lit "invalid"
  \/ status r = lit "missing-anchor".
Proof.
  unfold tally_files; rewrite tally_files_results; cbn [app all_link_results
    tally_start].
  intros H; apply in_flat_map in H; destruct H as (f & _ & H).
  apply in_map_iff in H; destruct H as (l & <- & _).
  rewrite validate_link_status; apply link_status_values.
Qed.

Lemma count_status_sum results :
  Forall (fun r => status r = lit "valid" \/ status r = lit "invalid"
                   \/ status r = lit "missing-anchor") results ->
  List.length results
  = count_status (lit "valid") results + count_status (lit "invalid") results
    + count_status (lit "missing-anchor") results.
Proof.
  unfold count_status; induction 1 as [|r rs Hr _ IH]; [reflexivity|].
  cbn [filter List.length].
  destruct Hr as [E|[E|E]]; rewrite E; cbn in IH |- *; lia.
Qed.

(** The counters of a run against its results. *)
Lemma tally_files_counts fs md_files :
  let t := tally_files fs md_files in
  total_links t = List.length (all_link_results t)
  /\ valid_links t = count_status (lit "valid") (all_link_results t)
  /\ invalid_links t = count_status (lit "invalid") (all_link_results t)
  /\ missing_anchors t
     = count_status (lit "missing-anchor") (all_link_results t).
Proof.
  cbv zeta; unfold tally_files.
  assert (Hstart :
            total_links tally_start
            = List.length (all_link_results tally_start)
            /\ valid_links tally_start
               = count_status (lit "valid") (all_link_results tally_start)
            /\ invalid_links tally_start
               = count_status (lit "invalid") (all_link_results tally_start)
            /\ missing_anchors tally_start
               = count_status (lit "missing-anchor")
                   (all_link_results tally_start))
    by (repeat split; reflexivity).
  revert Hstart; generalize tally_start.
  induction md_files as [|f fs' IH]; intros t H; [exact H|].
  cbn [fold_left]; apply IH, tally_file_counts, H.
Qed.

(** X13: after a run the counters agree with the list of results: the
    total is its length, each of the three status counters is the number of
    results with that status, and the three add up to the total. *)
Theorem counters_match_results fs md_files :
  let t := tally_files fs md_files in
  total_links t = List.length (all_link_results t)
  /\ valid_links t = count_status (lit "valid") (all_link_results t)
  /\ invalid_links t = count_status (lit "invalid") (all_link_results t)
  /\ missing_anchors t
     = count_status (lit "missing-anchor") (all_link_results t)
  /\ total_links t = valid_links t + invalid_links t + missing_anchors t.
Proof.
  destruct (tally_files_counts fs md_files) as (H1 & H2 & H3 & H4).
  cbv zeta in *; repeat split; try assumption.
  rewrite H1, H2, H3, H4.
  apply count_status_sum, Forall_forall.
  intros r Hr; exact (results_status_values fs md_files r Hr).
Qed.








(** A link on whose path [Path.exists] raises ends the run. *)
Example raising_stat_ends_the_run :
  let fs := faulty_stat_fs (lit "blueprint/guide.md") in
  validate_link_run fs (lit "blueprint/a.md") 1 (lit "x") (lit "./guide.md")
  = Raised
  /\ tally_link_run fs (lit "blueprint/a.md") (Returned tally_start)
       {| link_line_num := 1; link_text_of := lit "x";
          link_target_of := lit "./guide.md" |}
     = Raised.
Proof. split; reflexivity. Qed.

(** X15: a markdown file that cannot be read contributes no link and does
    not stop the run: the tally is that of the other files. *)
Theorem unreadable_file_is_skipped fs before md_file after :
  read_text fs md_file = Raised ->
  extract_links_from_file fs md_file = []
  /\ tally_files fs (before ++ md_file :: after)
     = tally_files fs (before ++ after).
Proof.
  intros Hread.
  assert (E : extract_links_from_file fs md_file = [])
    by (unfold extract_links_from_file; rewrite Hread; reflexivity).
  split; [exact E|].
  unfold tally_files; rewrite !fold_left_app; cbn [fold_left].
  unfold tally_file at 2; rewrite E; reflexivity.
Qed.

Lemma unreadable_file_is_skipped_witness :
  tally_files scenario_fs
    (lit "blueprint/A.md" :: lit "blueprint/gone.md" :: [lit "blueprint/B.md"])
  = tally_files scenario_fs (lit "blueprint/A.md" :: [lit "blueprint/B.md"]).
Proof.
  exact (proj2 (@unreadable_file_is_skipped scenario_fs [lit "blueprint/A.md"]
                  (lit "blueprint/gone.md") [lit "blueprint/B.md"] eq_refl)).
Defined.

(** * Properties of the self-validation checks *)

(** ** Occurrences and lines *)

Lemma contains_occurs p s :
  contains p s = true <-> exists before after, s = before ++ p ++ after.
Proof.
  induction s as [|c s IH]; cbn [contains].
  - rewrite orb_false_r; split.
    + intros H; apply startswith_prefix in H; destruct H as [r E].
      exists [], r; exact E.
    + intros (b & a & E). destruct b; [|discriminate E].
      destruct p; [reflexivity | discriminate E].
  - rewrite orb_true_iff, IH; split.
    + intros [H | (b & a & ->)].
      * apply startswith_prefix in H; destruct H as [r E].
        exists [], r; exact E.
      * exists (c :: b), a; reflexivity.
    + intros ([|x b] & a & E).
      * left; cbn [app] in E; rewrite E; apply startswith_app.
      * right; injection E as _ ->; eauto.
Qed.

Lemma contains_window p n s :
  contains p (firstn n s) = true
  <-> exists before after,
        s = before ++ p ++ after
        /\ List.length before + List.length p <= n.
Proof.
  rewrite contains_occurs; split.
  - intros (b & a & E).
    exists b, (a ++ skipn n s); split.
    + rewrite <- (firstn_skipn n s) at 1; rewrite E, <- !app_assoc.
      reflexivity.
    + pose proof (firstn_le_length n s) as L.
      rewrite E, !length_app in L; lia.
  - intros (b & a & -> & L).
    exists b, (firstn (n - List.length b - List.length p) a).
    rewrite firstn_app, firstn_all2 by lia.
    rewrite firstn_app, (firstn_all2 (n := n - List.length b)) by lia.
    reflexivity.
Qed.

Lemma file_lines_nil s : file_lines s = [] -> s = [].
Proof.
  destruct s as [|c s]; [reflexivity|]; cbn [file_lines].
  destruct (char_eqb c 10%N); [discriminate|].
  destruct (file_lines s); discriminate.
Qed.

(** The first line starts with what the text starts with, for a prefix
    that has no newline. *)
Lemma first_line_startswith s : forall p,
  ~ In 10%N p ->
  startswith p (nth 0 (file_lines s) []) = startswith p s.
Proof.
  induction s as [|c s IH]; intros [|x p] Hp; try reflexivity.
  cbn [file_lines].
  assert (Hx : x <> 10%N) by (intros ->; apply Hp; left; reflexivity).
  assert (Hp' : ~ In 10%N p) by (intros H; apply Hp; right; exact H).
  destruct (char_eqb c 10%N) eqn:Ec.
  - apply char_eqb_eq in Ec; subst c; cbn [nth startswith].
    replace (char_eqb x 10%N) with false; [reflexivity|].
    symmetry; apply N.eqb_neq; exact Hx.
  - specialize (IH p Hp').
    destruct (file_lines s) as [|piece rest] eqn:El.
    + apply file_lines_nil in El; subst s; reflexivity.
    + cbn [nth startswith] in IH |- *; rewrite IH; reflexivity.
Qed.

(** A line that is not the last one ends with the newline that closes it,
    and the lines behind it are those of the text behind that newline. *)
Lemma file_lines_cons s : forall l ls,
  file_lines s = l :: ls -> ls <> [] ->
  exists first s',
    ~ In 10%N first
    /\ l = first ++ [10%N]
    /\ s = first ++ 10%N :: s'
    /\ file_lines s' = ls.
Proof.
  induction s as [|c s IH]; intros l ls; cbn [file_lines]; [discriminate|].
  destruct (char_eqb c 10%N) eqn:Ec.
  - apply char_eqb_eq in Ec; subst c.
    intros H _; injection H as <- <-.
    exists [], s; repeat split; auto.
  - destruct (file_lines s) as [|piece rest] eqn:El.
    + intros H Hls; injection H as _ E2; exfalso; apply Hls; symmetry;
        exact E2.
    + intros H Hls; injection H as <- <-.
      destruct (IH piece rest eq_refl Hls) as (first & s' & Hn & -> & -> & E).
      exists (c :: first), s'; repeat split; auto.
      intros [E0 | H]; [|exact (Hn H)].
      subst c; rewrite char_eqb_refl in Ec; discriminate.
Qed.

Lemma file_lines_first first s' :
  ~ In 10%N first ->
  file_lines (first ++ 10%N :: s') = (first ++ [10%N]) :: file_lines s'.
Proof.
  induction first as [|c first IH]; intros Hn; [reflexivity|].
  cbn [app file_lines].
  replace (char_eqb c 10%N) with false.
  - rewrite IH; [reflexivity | intros H; apply Hn; right; exact H].
  - symmetry; apply N.eqb_neq; intros ->; apply Hn; left; reflexivity.
Qed.

Lemma append_grows (A : Type) (l : list A) (x : A) : l ++ [x] <> l.
Proof.
  intros H; apply (f_equal (@List.length A)) in H.
  rewrite length_app in H; cbn in H; lia.
Qed.

Lemma append_two_grows (A : Type) (l : list A) (x y : A) :
  (l ++ [x]) ++ [y] <> l.
Proof.
  intros H; apply (f_equal (@List.length A)) in H.
  rewrite !length_app in H; cbn in H; lia.
Qed.

(** ** The checks *)

(** X16: for a readable Python file, the documentation check adds no
    violation exactly when both the docstring mark and the word [Akao]
    occur entirely within the first 500 characters of the file. *)
Theorem python_documentation_window read py_file content violations :
  read py_file = SelfValidate.Text content ->
  SelfValidate._check_python_documentation read py_file violations
  = violations
  <-> (exists before after,
         content = before ++ SelfValidate.docstring_mark ++ after
         /\ List.length before + 3 <= 500)
      /\ (exists before after,
            content = before ++ lit "Akao" ++ after
            /\ List.length before + 4 <= 500).
Proof.
  intros Hread; unfold SelfValidate._check_python_documentation.
  rewrite Hread.
  pose proof (contains_window SelfValidate.docstring_mark 500 content) as W1.
  pose proof (contains_window (lit "Akao") 500 content) as W2.
  change (List.length SelfValidate.docstring_mark) with 3 in W1.
  change (List.length (lit "Akao")) with 4 in W2.
  rewrite <- W1, <- W2; clear W1 W2.
  destruct (contains SelfValidate.docstring_mark (firstn 500 content));
    destruct (contains (lit "Akao") (firstn 500 content)); cbn [negb];
    split; try tauto; try (intros [H1 H2]; discriminate);
    intros H; exfalso;
    first [ exact (@append_grows _ _ _ H) | exact (@append_two_grows _ _ _ _ H) ].
Qed.

Lemma python_documentation_window_witness :
  SelfValidate._check_python_documentation
    (SelfValidate.one_file (lit "check.py")
       (lit "#!/usr/bin/env python3" ++ [10%N] ++ SelfValidate.docstring_mark
        ++ [10%N] ++ lit "Akao Self-Validation Script"))
    (lit "check.py") []
  = [].
Proof.
  apply (proj2 (@python_documentation_window
    (SelfValidate.one_file (lit "check.py")
       (lit "#!/usr/bin/env python3" ++ [10%N] ++ SelfValidate.docstring_mark
        ++ [10%N] ++ lit "Akao Self-Validation Script"))
    (lit "check.py")
    (lit "#!/usr/bin/env python3" ++ [10%N] ++ SelfValidate.docstring_mark
     ++ [10%N] ++ lit "Akao Self-Validation Script")
    [] eq_refl)).
  split.
  - exists (lit "#!/usr/bin/env python3" ++ [10%N]),
      ([10%N] ++ lit "Akao Self-Validation Script").
    split; [reflexivity | vm_compute; lia].
  - exists (lit "#!/usr/bin/env python3" ++ [10%N]
            ++ SelfValidate.docstring_mark ++ [10%N]),
      (lit " Self-Validation Script").
    split; [reflexivity | vm_compute; lia].
Defined.

(** X17: for a readable YAML file, the documentation check adds no
    violation exactly when the text of the file is a first line, its
    newline, and then [# Akao]. *)
Theorem yaml_documentation_second_line read yaml_file content violations :
  read yaml_file = SelfValidate.Text content ->
  SelfValidate._check_yaml_documentation read yaml_file violations
  = violations
  <-> exists first rest,
        ~ In 10%N first
        /\ content = first ++ 10%N :: lit "# Akao" ++ rest.
Proof.
  intros Hread; unfold SelfValidate._check_yaml_documentation.
  rewrite Hread; cbv zeta.
  assert (Hp : ~ In 10%N (lit "# Akao"))
    by (vm_compute; intuition discriminate).
  split.
  - destruct (file_lines content) as [|l1 [|l2 more]] eqn:El;
      cbn [List.length Nat.ltb Nat.leb orb];
      try (intros H; exfalso; exact (@append_grows _ _ _ H)).
    cbn [nth].
    destruct (startswith (lit "# Akao") l2) eqn:Es; cbn [negb];
      [intros _ | intros H; exfalso; exact (@append_grows _ _ _ H)].
    destruct (@file_lines_cons content l1 (l2 :: more) El)
      as (first & s' & Hn & _ & -> & E'); [discriminate|].
    pose proof (@first_line_startswith s' _ Hp) as F.
    rewrite E' in F; cbn [nth] in F; rewrite Es in F.
    symmetry in F; apply startswith_prefix in F; destruct F as [rest ->].
    exists first, rest; split; [exact Hn | reflexivity].
  - intros (first & rest & Hn & ->).
    rewrite (@file_lines_first _ _ Hn).
    pose proof (@first_line_startswith (lit "# Akao" ++ rest) _ Hp) as F.
    rewrite startswith_app in F.
    destruct (file_lines (lit "# Akao" ++ rest)) as [|l2 more] eqn:El.
    + apply file_lines_nil in El; discriminate El.
    + cbn [nth] in F |- *; rewrite F; reflexivity.
Qed.

Lemma yaml_documentation_second_line_witness :
  SelfValidate._check_yaml_documentation
    (SelfValidate.one_file (lit "v1.yaml")
       (lit "---" ++ 10%N :: lit "# Akao" ++ lit " rule file"))
    (lit "v1.yaml") []
  = [].
Proof.
  apply (proj2 (@yaml_documentation_second_line
    (SelfValidate.one_file (lit "v1.yaml")
       (lit "---" ++ 10%N :: lit "# Akao" ++ lit " rule file"))
    (lit "v1.yaml")
    (lit "---" ++ 10%N :: lit "# Akao" ++ lit " rule file") [] eq_refl)).
  exists (lit "---"), (lit " rule file").
  split; [vm_compute; intuition discriminate | reflexivity].
Defined.

(** ** The documentation check of C++ files *)

Lemma split_whitespace_lstrip s :
  SelfValidate.split_whitespace (lstrip_by is_space s)
  = SelfValidate.split_whitespace s.
Proof.
  induction s as [|c s IH]; [reflexivity|].
  cbn [lstrip_by]; destruct (is_space c) eqn:Ec.
  - rewrite IH; cbn [SelfValidate.split_whitespace]; rewrite Ec; reflexivity.
  - reflexivity.
Qed.

Lemma split_whitespace_word s c :
  In c s -> is_space c = false -> SelfValidate.split_whitespace s <> [].
Proof.
  induction s as [|x s IH]; intros Hin Hc; [destruct Hin|].
  cbn [SelfValidate.split_whitespace].
  destruct (is_space x) eqn:Ex.
  - destruct Hin as [-> | Hin]; [congruence | exact (IH Hin Hc)].
  - destruct s as [|d s]; [discriminate|].
    destruct (is_space d); [discriminate|].
    destruct (SelfValidate.split_whitespace (d :: s)); discriminate.
Qed.

Lemma class_prefix_words t :
  SelfValidate.split_whitespace (lit "class " ++ t)
  = lit "class" :: SelfValidate.split_whitespace t.
Proof.
  change (lit "class " ++ t)
    with (99%N :: 108%N :: 97%N :: 115%N :: 115%N :: 32%N :: t).
  change (lit "class") with [99%N; 108%N; 97%N; 115%N; 115%N].
  assert (E5 : SelfValidate.split_whitespace (115%N :: 32%N :: t)
               = [115%N] :: SelfValidate.split_whitespace t) by reflexivity.
  assert (E4 : SelfValidate.split_whitespace (115%N :: 115%N :: 32%N :: t)
               = [115%N; 115%N] :: SelfValidate.split_whitespace t).
  { change (SelfValidate.split_whitespace (115%N :: 115%N :: 32%N :: t))
      with (match SelfValidate.split_whitespace (115%N :: 32%N :: t) with
            | w :: ws => (115%N :: w) :: ws
            | [] => [[115%N]]
            end).
    rewrite E5; reflexivity. }
  assert (E3 : SelfValidate.split_whitespace
                 (97%N :: 115%N :: 115%N :: 32%N :: t)
               = [97%N; 115%N; 115%N] :: SelfValidate.split_whitespace t).
  { change (SelfValidate.split_whitespace
              (97%N :: 115%N :: 115%N :: 32%N :: t))
      with (match SelfValidate.split_whitespace
                    (115%N :: 115%N :: 32%N :: t) with
            | w :: ws => (97%N :: w) :: ws
            | [] => [[97%N]]
            end).
    rewrite E4; reflexivity. }
  assert (E2 : SelfValidate.split_whitespace
                 (108%N :: 97%N :: 115%N :: 115%N :: 32%N :: t)
               = [108%N; 97%N; 115%N; 115%N]
                 :: SelfValidate.split_whitespace t).
  { change (SelfValidate.split_whitespace
              (108%N :: 97%N :: 115%N :: 115%N :: 32%N :: t))
      with (match SelfValidate.split_whitespace
                    (97%N :: 115%N :: 115%N :: 32%N :: t) with
            | w :: ws => (108%N :: w) :: ws
            | [] => [[108%N]]
            end).
    rewrite E3; reflexivity. }
  change (SelfValidate.split_whitespace
            (99%N :: 108%N :: 97%N :: 115%N :: 115%N :: 32%N :: t))
    with (match SelfValidate.split_whitespace
                  (108%N :: 97%N :: 115%N :: 115%N :: 32%N :: t) with
          | w :: ws => (99%N :: w) :: ws
          | [] => [[99%N]]
          end).
  rewrite E2; reflexivity.
Qed.

(** A line that starts a class has at least two words. *)
Lemma class_line_words l :
  startswith (lit "class ") (strip l) = true ->
  exists name more,
    SelfValidate.split_whitespace l = lit "class" :: name :: more.
Proof.
  intros H; apply startswith_prefix in H; destruct H as [r Er].
  unfold strip, strip_by in Er.
  pose proof (rstrip_by_idem is_space (lstrip_by is_space l)) as Hid.
  apply rstrip_fixed_last in Hid; rewrite Er in Hid.
  destruct (rstrip_by_prefix is_space (lstrip_by is_space l)) as [post Ep].
  rewrite Er in Ep.
  rewrite <- split_whitespace_lstrip, Ep, <- app_assoc, class_prefix_words.
  assert (Hw : exists z, In z r /\ is_space z = false).
  { rewrite rev_app_distr in Hid.
    destruct (rev r) as [|z zs] eqn:Ez.
    - cbn in Hid; discriminate Hid.
    - exists z; split; [|exact Hid].
      apply in_rev; rewrite Ez; left; reflexivity. }
  destruct Hw as (z & Hz & Hs).
  destruct (SelfValidate.split_whitespace (r ++ post)) as [|name more] eqn:Ew.
  - exfalso; apply (@split_whitespace_word (r ++ post) z); auto.
    apply in_or_app; left; exact Hz.
  - eauto.
Qed.

Lemma class_name_found lines l :
  In l lines -> startswith (lit "class ") (strip l) = true ->
  exists name, SelfValidate.class_name lines = Some name.
Proof.
  intros Hin Hl; unfold SelfValidate.class_name.
  destruct (filter (fun l => startswith (lit "class ") (strip l)) lines)
    as [|l0 rest] eqn:Ef.
  - assert (H : In l (filter (fun l => startswith (lit "class ") (strip l))
                        lines)) by (apply filter_In; auto).
    rewrite Ef in H; destruct H.
  - assert (H0 : In l0 (filter (fun l => startswith (lit "class ") (strip l))
                          lines)) by (rewrite Ef; left; reflexivity).
    apply filter_In in H0; destruct H0 as [_ H0].
    destruct (class_line_words l0 H0) as (name & more & ->); eauto.
Qed.

(** The loop over the lines is never ended by an exception; what it adds
    are violations about the documentation of a class. *)
Lemma class_loop_scans lines cpp_file : forall todo in_class violations,
  (forall l, In l todo -> In l lines) ->
  (in_class = true -> exists name, SelfValidate.class_name lines = Some name) ->
  exists in_class' new,
    fold_left (SelfValidate.class_step lines cpp_file) todo
      (SelfValidate.Scanning in_class violations)
    = SelfValidate.Scanning in_class' (violations ++ new)
    /\ Forall (fun m =>
                 startswith (lit "Missing class documentation for ") m = true)
         new.
Proof.
  induction todo as [|line todo IH]; intros b v Hsub Hb; cbn [fold_left].
  - exists b, []; split; [rewrite app_nil_r; reflexivity | constructor].
  - assert (Hsub' : forall l, In l todo -> In l lines)
      by (intros l Hl; apply Hsub; right; exact Hl).
    unfold SelfValidate.class_step at 2.
    destruct (startswith (lit "class ") (strip line)
              && negb (contains (lit "public:") line)) eqn:Ec.
    + apply andb_true_iff in Ec; destruct Ec as [Ec _].
      apply IH; [exact Hsub'|].
      intros _; apply (@class_name_found lines line);
        [apply Hsub; left; reflexivity | exact Ec].
    + destruct (b && startswith (lit "public:") (strip line)) eqn:Ep;
        [|apply IH; assumption].
      apply andb_true_iff in Ep; destruct Ep as [-> _].
      destruct (negb (existsb (contains (lit "///")) _));
        [|apply IH; [exact Hsub' | discriminate]].
      destruct (Hb eq_refl) as [name ->].
      destruct (IH false
                  (v ++ [lit "Missing class documentation for " ++ name
                         ++ lit ": " ++ cpp_file]) Hsub')
        as (b' & new & E & Hnew); [discriminate|].
      exists b', ((lit "Missing class documentation for " ++ name
                   ++ lit ": " ++ cpp_file) :: new).
      split; [rewrite E, <- app_assoc; reflexivity|].
      constructor; [apply startswith_app | exact Hnew].
Qed.

(** X18: for a readable C++ file, the documentation check keeps the
    violations it is given and adds only the header violation and
    violations about the documentation of a class: the lookup of the class
    name never raises, so no read failure is reported. *)
Theorem cpp_documentation_never_fails read cpp_file content violations :
  read cpp_file = SelfValidate.Text content ->
  exists new,
    SelfValidate._check_cpp_documentation read cpp_file violations
    = violations ++ new
    /\ Forall (fun m =>
                 m = lit "Missing proper header: " ++ cpp_file
                 \/ startswith (lit "Missing class documentation for ") m
                    = true) new.
Proof.
  intros Hread; unfold SelfValidate._check_cpp_documentation.
  rewrite Hread; cbv zeta.
  set (lines := file_lines content).
  set (header := (List.length lines <? 3)
                 || negb (startswith (lit "// Akao") (nth 0 lines []))).
  set (v0 := if header
             then violations ++ [lit "Missing proper header: " ++ cpp_file]
             else violations).
  destruct (@class_loop_scans lines cpp_file lines false v0
              (fun l H => H)) as (b' & new & -> & Hnew); [discriminate|].
  assert (Hnew' : Forall (fun m =>
                    m = lit "Missing proper header: " ++ cpp_file
                    \/ startswith (lit "Missing class documentation for ") m
                       = true) new)
    by (eapply Forall_impl; [|exact Hnew]; intros m Hm; right; exact Hm).
  unfold v0; destruct header.
  - exists ((lit "Missing proper header: " ++ cpp_file) :: new).
    split; [rewrite <- app_assoc; reflexivity|].
    constructor; [left; reflexivity | exact Hnew'].
  - exists new; split; [reflexivity | exact Hnew'].
Qed.

Lemma cpp_documentation_never_fails_witness :
  SelfValidate._check_cpp_documentation
    (SelfValidate.one_file (lit "engine.hpp")
       (text_of_lines ["// Akao"; "class Engine {"; "public:"; "};"]%string))
    (lit "engine.hpp") []
  = [lit "Missing class documentation for Engine: engine.hpp"]
  /\ exists new,
       SelfValidate._check_cpp_documentation
         (SelfValidate.one_file (lit "engine.hpp")
            (text_of_lines
               ["// Akao"; "class Engine {"; "public:"; "};"]%string))
         (lit "engine.hpp") []
       = [] ++ new
       /\ Forall (fun m =>
                    m = lit "Missing proper header: " ++ lit "engine.hpp"
                    \/ startswith (lit "Missing class documentation for ") m
                       = true) new.
Proof.
  split; [reflexivity|].
  apply (@cpp_documentation_never_fails
    (SelfValidate.one_file (lit "engine.hpp")
       (text_of_lines ["// Akao"; "class Engine {"; "public:"; "};"]%string))
    (lit "engine.hpp")
    (text_of_lines ["// Akao"; "class Engine {"; "public:"; "};"]%string)
    [] eq_refl).
Defined.

Lemma structure_header_violation read cpp_file content :
  read cpp_file = SelfValidate.Text content ->
  In (lit "Missing Akao header comment: " ++ cpp_file)
    (SelfValidate._check_cpp_structure read cpp_file [])
  <-> startswith (lit "// Akao") content = false.
Proof.
  intros Hread; unfold SelfValidate._check_cpp_structure; rewrite Hread.
  destruct (startswith (lit "// Akao") content);
    destruct (contains (lit "#pragma once") content);
    destruct (contains (lit "namespace akao") content);
    cbn [negb app In]; split; intros H;
    repeat match goal with
      | H : _ \/ _ |- _ => destruct H as [H|H]
      | H : False |- _ => destruct H
      end;
    try reflexivity; try discriminate; auto;
    try (cbn in H; discriminate H).
Qed.

(** X19: the two header rules for C++ files agree up to the length of the
    file: for a readable file, the documentation check reports a missing
    header exactly when the structure check reports one or the file has
    fewer than three lines. *)
Theorem cpp_header_rules_agree read cpp_file content :
  read cpp_file = SelfValidate.Text content ->
  In (lit "Missing proper header: " ++ cpp_file)
    (SelfValidate._check_cpp_documentation read cpp_file [])
  <-> In (lit "Missing Akao header comment: " ++ cpp_file)
        (SelfValidate._check_cpp_structure read cpp_file [])
      \/ List.length (file_lines content) < 3.
Proof.
  intros Hread; rewrite (@structure_header_violation _ _ _ Hread).
  assert (Hp : ~ In 10%N (lit "// Akao"))
    by (vm_compute; intuition discriminate).
  rewrite <- (@first_line_startswith content _ Hp).
  unfold SelfValidate._check_cpp_documentation; rewrite Hread; cbv zeta.
  set (lines := file_lines content).
  match goal with
  | |- context [fold_left _ _ (SelfValidate.Scanning false ?v)] =>
      destruct (@class_loop_scans lines cpp_file lines false v
                  (fun l H => H)) as (b' & new & -> & Hnew);
        [discriminate|]
  end.
  assert (Hother : ~ In (lit "Missing proper header: " ++ cpp_file) new).
  { intros H; rewrite Forall_forall in Hnew; apply Hnew in H.
    cbn in H; discriminate H. }
  destruct (List.length lines <? 3) eqn:El.
  - apply Nat.ltb_lt in El; cbn [orb app]; split; [auto|].
    intros _; left; reflexivity.
  - apply Nat.ltb_ge in El; cbn [orb].
    destruct (startswith (lit "// Akao") (nth 0 lines [])); cbn [negb app].
    + split; [intros H; contradiction | intros [H|H]; [discriminate | lia]].
    + split; [auto | intros _; left; reflexivity].
Qed.

Lemma cpp_header_rules_agree_witness :
  In (lit "Missing proper header: short.hpp")
    (SelfValidate._check_cpp_documentation
       (SelfValidate.one_file (lit "short.hpp")
          (text_of_lines ["// Akao"; "#pragma once"]%string))
       (lit "short.hpp") []).
Proof.
  apply (proj2 (@cpp_header_rules_agree
    (SelfValidate.one_file (lit "short.hpp")
       (text_of_lines ["// Akao"; "#pragma once"]%string))
    (lit "short.hpp")
    (text_of_lines ["// Akao"; "#pragma once"]%string) eq_refl)).
  right; vm_compute; lia.
Defined.

(** * Every passing match is extracted *)

Lemma match_loop_keeps n line ms : forall acc l,
  In l acc -> In l (fold_left (match_step n line) ms acc).
Proof.
  induction ms as [|[t g] ms IH]; intros acc l H; cbn [fold_left]; [exact H|].
  apply IH; unfold match_step.
  destruct (truthy (strip t) && truthy (strip g)); [|exact H].
  destruct (is_likely_code_snippet line t g); [exact H|].
  apply in_or_app; left; exact H.
Qed.

Lemma match_loop_adds n line ms link_text link_target : forall acc,
  In (link_text, link_target) ms ->
  strip link_text <> [] -> strip link_target <> [] ->
  is_likely_code_snippet line link_text link_target = false ->
  In {| link_line_num := n; link_text_of := link_text;
        link_target_of := link_target |}
    (fold_left (match_step n line) ms acc).
Proof.
  induction ms as [|[t g] ms IH]; intros acc Hin Ht Hg Hc; [destruct Hin|].
  cbn [fold_left]; destruct Hin as [E | Hin]; [|apply IH; assumption].
  injection E as -> ->; apply match_loop_keeps.
  unfold match_step; rewrite Hc.
  destruct (strip link_text); [congruence|].
  destruct (strip link_target); [congruence|].
  apply in_or_app; right; left; reflexivity.
Qed.

Lemma scan_keeps lines : forall n st l,
  In l (links st) ->
  In l (links (fold_left scan_step (enumerate n lines) st)).
Proof.
  intros n st l H.
  destruct (scan_shape lines n st) as (new & -> & _).
  apply in_or_app; left; exact H.
Qed.

Lemma scan_links_complete lines : forall n st i line link_text link_target,
  nth_error lines i = Some line ->
  is_fence line = false ->
  xorb (in_code_block st) (Nat.odd (count_fences (firstn i lines))) = false ->
  In (link_text, link_target) (Re.findall_link line) ->
  strip link_text <> [] -> strip link_target <> [] ->
  is_likely_code_snippet line link_text link_target = false ->
  In {| link_line_num := n + i; link_text_of := link_text;
        link_target_of := link_target |}
    (links (fold_left scan_step (enumerate n lines) st)).
Proof.
  induction lines as [|l0 lines IH]; intros n st i line t g Hi Hf Hx Hm Ht Hg Hc;
    [destruct i; discriminate Hi|].
  rewrite enumerate_cons; cbn [fold_left].
  destruct i as [|i].
  - injection Hi as ->.
    cbn [firstn] in Hx; change (count_fences []) with 0 in Hx.
    cbn [Nat.odd Nat.even negb] in Hx; rewrite xorb_false_r in Hx.
    apply scan_keeps; unfold scan_step; fold (is_fence line).
    rewrite Hf, Hx, Nat.add_0_r; cbn [links].
    apply match_loop_adds; assumption.
  - replace (n + S i) with (S n + i) by lia.
    apply IH with (line := line); try assumption.
    rewrite scan_step_fence.
    cbn [firstn nth_error] in Hi, Hx; rewrite count_fences_cons in Hx.
    destruct (is_fence l0); cbn [Nat.add] in Hx;
      [|rewrite xorb_false_r; exact Hx].
    rewrite Nat.odd_succ, <- Nat.negb_odd in Hx.
    destruct (in_code_block st), (Nat.odd (count_fences (firstn i lines)));
      cbn in *; congruence.
Qed.

(** X20: every match on a line is extracted when the line is no fence
    line and follows an even number of fence lines, the text and the target
    of the match are not blank, and the filter does not take it for code;
    the link carries the number of the line. *)
Theorem passing_matches_are_extracted content i line link_text link_target :
  nth_error (split_char 10%N content) i = Some line ->
  is_fence line = false ->
  Nat.even (count_fences (firstn i (split_char 10%N content))) = true ->
  In (link_text, link_target) (Re.findall_link line) ->
  strip link_text <> [] -> strip link_target <> [] ->
  is_likely_code_snippet line link_text link_target = false ->
  In {| link_line_num := 1 + i; link_text_of := link_text;
        link_target_of := link_target |}
    (links (scan_content content)).
Proof.
  intros Hi Hf He Hm Ht Hg Hc; unfold scan_content.
  apply scan_links_complete with (line := line); try assumption.
  cbn [in_code_block scan_start xorb].
  rewrite <- Nat.negb_even, He; reflexivity.
Qed.

Lemma passing_matches_are_extracted_witness :
  In {| link_line_num := 4; link_text_of := lit "c"; link_target_of := lit "d" |}
    (links (scan_content fenced_link_doc)).
Proof.
  apply (@passing_matches_are_extracted fenced_link_doc 3 (lit "[c](d)")
           (lit "c") (lit "d")).
  - reflexivity.
  - reflexivity.
  - reflexivity.
  - left; reflexivity.
  - discriminate.
  - discriminate.
  - reflexivity.
Defined.
